(** * Cluster storage of storm-analysis: [SAH5Clusters]

    A shallow embedding of [storm_analysis/dbscan/clusters_sa_h5py.py] and
    the properties of its partition / reconstruction logic.

    Conventions of the embedding.
    - Python exceptions are the [Raise] case of [result]; an operation
      that mutates the HDF5 file returns the file it leaves behind
      together with its [result], so that the state after an exception
      is visible.
    - A Python [dict] is an association list in insertion order
      ([dict]); a dictionary received from outside additionally carries
      the fact that its keys are distinct ([pydict]).
    - An HDF5 group is a finite map from names to members ([gmap]).
    - A numpy array is a [dtype] together with the list of its elements;
      the element type and the numeric operations numpy applies to it
      are parameters of the development.  Cluster indices are Python
      integers, modelled by [Z]; cluster ids are the elements of an
      array of numpy's default integer type, 64-bit signed integers,
      and the one computation on them, [numpy.amax(cluster_id) + 1],
      wraps around at 64 bits.
    - The members of a cluster group are datasets under plain names;
      h5py reads a name with a slash as a path, and the statements
      about the stored fields of a bundle are about bundles whose
      field names are plain. *)

From Stdlib Require Import ZArith Lia Ascii.
From stdpp Require Import base option list sorting strings gmap fin_maps pretty.

Local Open Scope string_scope.
Local Open Scope list_scope.

(** ** Exceptions and results *)

Inductive exn : Type :=
  | KeyError (key : string)
  | IndexError
  | ValueError
  | TypeError
  | AttributeError
  | AssertionError (msg : string).

Inductive result (A : Type) : Type :=
  | Ok (a : A)
  | Raise (e : exn).
Arguments Ok {A} a.
Arguments Raise {A} e.

#[global] Instance result_ret : MRet result := @Ok.
#[global] Instance result_bind : MBind result := λ A B f m,
  match m with Ok a => f a | Raise e => Raise e end.

Definition raises {A} (r : result A) : Prop := ∃ e, r = Raise e.

(** A loop whose body mutates a state [S] and may raise: the state
    reached when the exception escapes is kept. *)
Fixpoint for_each {S A} (xs : list A) (body : A → S → S * result unit) (s : S)
    : S * result unit :=
  match xs with
  | [] => (s, Ok ())
  | x :: xs =>
      match body x s with
      | (s', Ok _) => for_each xs body s'
      | (s', Raise e) => (s', Raise e)
      end
  end.

(** ** Python dictionaries *)

Definition dict (V : Type) : Type := list (string * V).

Fixpoint dict_get {V} (k : string) (d : dict V) : option V :=
  match d with
  | [] => None
  | (k', v) :: d => if decide (k' = k) then Some v else dict_get k d
  end.

(** [d[k] = v]: an existing key keeps its position. *)
Fixpoint dict_set {V} (k : string) (v : V) (d : dict V) : dict V :=
  match d with
  | [] => [(k, v)]
  | (k', v') :: d => if decide (k' = k) then (k, v) :: d else (k', v') :: dict_set k v d
  end.

Definition dict_mem {V} (k : string) (d : dict V) : bool := bool_decide (is_Some (dict_get k d)).

(** [d[k]] as an expression. *)
Definition dict_getitem {V} (k : string) (d : dict V) : result V :=
  match dict_get k d with Some v => Ok v | None => Raise (KeyError k) end.

(** [not d] *)
Definition dict_is_empty {V} (d : dict V) : bool :=
  match d with [] => true | _ => false end.

Record pydict (V : Type) : Type := PyDict {
  items :> dict V;
  items_nodup : bool_decide (NoDup items.*1)
}.
Arguments PyDict {V} items items_nodup.
Arguments items {V} p.
Arguments items_nodup {V} p.

(** ** numpy helpers on integer arrays *)

(** [numpy.amin] / [numpy.amax]: [ValueError] on an empty array. *)
Definition amin (a : list Z) : result Z :=
  match a with [] => Raise ValueError | x :: xs => Ok (foldl Z.min x xs) end.
Definition amax (a : list Z) : result Z :=
  match a with [] => Raise ValueError | x :: xs => Ok (foldl Z.max x xs) end.

(** The elements of an array of numpy's default integer type are 64-bit
    signed integers, and so is the sum of one of them with a Python
    integer: the sum wraps around. *)
Definition int64_wrap (z : Z) : Z := ((z + 2 ^ 63) mod 2 ^ 64 - 2 ^ 63)%Z.

(** [range(start, stop)] *)
Definition range (start stop : Z) : list Z := seqZ start (stop - start).

(** [a == i] *)
Definition eq_mask (a : list Z) (i : Z) : list bool := (λ x, bool_decide (x = i)) <$> a.

Definition count_nonzero (m : list bool) : Z := Z.of_nat (length (filter (λ b, b = true) m)).

(** [xs[mask]] on lists of equal length. *)
Fixpoint select {A} (xs : list A) (m : list bool) : list A :=
  match xs, m with
  | x :: xs, b :: m => if b then x :: select xs m else select xs m
  | _, _ => []
  end.

(** ** The numpy side

    Array elements, element types and the conversions numpy performs
    are an interface of the development. *)

Class Numpy : Type := {
  value : Type;
  dtype : Type;
  (** the element [numpy.zeros] fills an array of a given type with *)
  zero : dtype → value;
  (** conversion of an element stored into an array of a given type *)
  cast : dtype → value → value;
  (** [int(v)] *)
  to_int : value → Z;
  (** [v] used as an index: only an integer scalar can index an array *)
  as_index : value → option Z;
  (** a Python integer as an element ([numpy.arange], a loop counter) *)
  of_int : Z → value;
  (** elementwise product of [array * scalar] *)
  mul : value → value → value;
  (** the literal [1000.0] *)
  f1000 : value;
  (** the default type of [numpy.zeros], [numpy.int] and [numpy.int32] *)
  float64 : dtype;
  int_ : dtype;
  int32 : dtype
}.

Record ndarray `{Numpy} : Type := NdArray { dtype_of : dtype; data : list value }.
Arguments NdArray {_} dtype_of data.

(** [arr.size] *)
Definition size_of `{Numpy} (arr : ndarray) : nat := length (data arr).

(** [numpy.zeros(n, dt)] *)
Definition zeros `{Numpy} (n : nat) (dt : dtype) : ndarray := NdArray dt (replicate n (zero dt)).

(** [arr[mask]]: the mask must be as long as the array. *)
Definition bool_index `{Numpy} (arr : ndarray) (m : list bool) : result ndarray :=
  if decide (length m = size_of arr)
  then Ok (NdArray (dtype_of arr) (select (data arr) m))
  else Raise IndexError.

(** [arr[j]] for a Python integer [j]; a negative index counts from the end. *)
Definition np_item `{Numpy} (arr : ndarray) (j : Z) : result value :=
  let n := Z.of_nat (size_of arr) in
  let j' := if bool_decide (j < 0)%Z then (j + n)%Z else j in
  if bool_decide (0 ≤ j' < n)%Z
  then from_option Ok (Raise IndexError) (data arr !! Z.to_nat j')
  else Raise IndexError.

(** [arr[k]] for an array element [k]. *)
Definition np_getitem `{Numpy} (arr : ndarray) (k : value) : result value :=
  match as_index k with
  | Some j => np_item arr j
  | None => Raise IndexError
  end.

(** [arr[i] = v] for [i] from a [range]. *)
Definition np_setitem `{Numpy} (arr : ndarray) (i : nat) (v : value) : result ndarray :=
  if decide (i < size_of arr)%nat
  then Ok (NdArray (dtype_of arr) (<[i := cast (dtype_of arr) v]> (data arr)))
  else Raise IndexError.

(** [arr[start:stop] = vals]: the slice is clipped to the array; [vals]
    must have the length of the clipped slice, or length one, in which
    case it is broadcast. *)
Definition slice_assign `{Numpy} (arr : ndarray) (start stop : nat) (vals : list value)
    : result ndarray :=
  let n := size_of arr in
  let lo := start `min` n in
  let hi := lo `max` (stop `min` n) in
  let put (vs : list value) :=
    NdArray (dtype_of arr)
      (take lo (data arr) ++ (cast (dtype_of arr) <$> vs) ++ drop hi (data arr)) in
  if decide (length vals = hi - lo)%nat then Ok (put vals)
  else match vals with
       | [v] => Ok (put (replicate (hi - lo) v))
       | _ => Raise ValueError
       end.

(** [arr[start:stop] = v] for a scalar [v]. *)
Definition slice_fill `{Numpy} (arr : ndarray) (start stop : nat) (v : value) : ndarray :=
  let n := size_of arr in
  let lo := start `min` n in
  let hi := lo `max` (stop `min` n) in
  NdArray (dtype_of arr)
    (take lo (data arr) ++ replicate (hi - lo) (cast (dtype_of arr) v) ++ drop hi (data arr)).

(** [numpy.arange(n)] *)
Definition arange `{Numpy} (n : nat) : list value := (λ k, of_int (Z.of_nat k)) <$> seq 0 n.

(** ** The record store

    The methods of the parent class [SAH5Py] used here.  A generator is
    the list of the elements it yields and the exception that ends it,
    if any. *)

Definition gen (A : Type) : Type := list A * option exn.

Class RecordStore `{Numpy} : Type := {
  (** [getLocalizationsInFrame(frame_number, drift_corrected, fields)] *)
  getLocalizationsInFrame : Z → bool → option (list string) → result (pydict ndarray);
  (** [getTracksByIndex(index, fields)] *)
  getTracksByIndex : Z → option (list string) → result (pydict ndarray);
  getPixelSize : value;
  hasTracks : bool;
  getNTracks : nat;
  getNLocalizations : nat;
  (** [tracksIterator(fields)] *)
  tracksIterator : option (list string) → gen (pydict ndarray);
  (** [localizationsIterator(fields)] *)
  localizationsIterator : option (list string) → gen (Z * pydict ndarray)
}.

(** ** The persisted layout

    The file holds at most one group named "clusters"; its attributes
    are [n_clusters] and [info], its members the groups [cl_<k>], each
    with the attribute [cl_size] and one dataset per field. *)

Record cl_grp `{Numpy} : Type := ClGrp {
  datasets : gmap string ndarray;
  cl_size : option Z
}.
Arguments ClGrp {_} datasets cl_size.

Record clusters_grp `{Numpy} : Type := ClustersGrp {
  groups : gmap string cl_grp;
  n_clusters : option Z;
  info : option string
}.
Arguments ClustersGrp {_} groups n_clusters info.

(** Only the "clusters" entry of [self.hdf5] is read or written here. *)
Definition hdf5 `{Numpy} : Type := option clusters_grp.

Definition empty_cl_grp `{Numpy} : cl_grp := ClGrp ∅ None.
Definition empty_clusters_grp `{Numpy} : clusters_grp := ClustersGrp ∅ None None.

Definition hasClusters `{Numpy} (h : hdf5) : bool :=
  match h with Some _ => true | None => false end.

Definition getClusters `{Numpy} (h : hdf5) : result clusters_grp :=
  match h with Some c => Ok c | None => Raise (KeyError "clusters") end.

Definition getClusterName (index : Z) : string := "cl_" +:+ pretty index.

(** ** addClusters *)

(** h5py refuses to create a member under a name already in use. *)
Definition create_dataset `{Numpy} (field : string) (arr : ndarray) (g : cl_grp)
    : cl_grp * result unit :=
  match datasets g !! field with
  | Some _ => (g, Raise ValueError)
  | None => (ClGrp (<[field := arr]> (datasets g)) (cl_size g), Ok ())
  end.

Definition set_cl_size `{Numpy} (s : Z) (g : cl_grp) : cl_grp := ClGrp (datasets g) (Some s).

Definition put_group `{Numpy} (name : string) (g : cl_grp) (c : clusters_grp) : clusters_grp :=
  ClustersGrp (<[name := g]> (groups c)) (n_clusters c) (info c).

(** The size check, in the order of the dictionary. *)
Fixpoint check_sizes `{Numpy} (cluster_data : dict ndarray) (n : nat) : result unit :=
  match cluster_data with
  | [] => Ok ()
  | (field, arr) :: rest =>
      if decide (size_of arr = n) then check_sizes rest n
      else Raise (AssertionError ("Incorrect size for data " +:+ field))
  end.

(** The body of [for field in cluster_data] for one cluster. *)
Definition add_field `{Numpy} (cl_mask : list bool) (fa : string * ndarray) (g : cl_grp)
    : cl_grp * result unit :=
  match bool_index fa.2 cl_mask with
  | Ok sub => create_dataset fa.1 sub g
  | Raise e => (g, Raise e)
  end.

(** The body of [for i in range(start, end)]; the loop state is the
    "clusters" group and the counter [n_clusters]. *)
Definition add_cluster `{Numpy} (cluster_id : list Z) (cluster_data : dict ndarray) (i : Z)
    (st : clusters_grp * Z) : (clusters_grp * Z) * result unit :=
  let '(c, n) := st in
  let cl_mask := eq_mask cluster_id i in
  let size := count_nonzero cl_mask in
  if bool_decide (size > 0)%Z then
    let name := getClusterName n in
    match groups c !! name with
    | Some _ => ((c, n), Raise ValueError)
    | None =>
        match for_each cluster_data (add_field cl_mask) empty_cl_grp with
        | (g, Ok _) => ((put_group name (set_cl_size size g) c, (n + 1)%Z), Ok ())
        | (g, Raise e) => ((put_group name g c, n), Raise e)
        end
    end
  else ((c, n), Ok ()).

Definition addClusters `{Numpy} (h : hdf5) (cluster_id : list Z) (cluster_data : pydict ndarray)
    : hdf5 * result unit :=
  (* Delete off clustering information, if any. *)
  let h := if hasClusters h then None else h in
  (* create_group refuses a name in use. *)
  match h with
  | Some c => (Some c, Raise ValueError)
  | None =>
      let clusters := empty_clusters_grp in
      (* Check that arrays are the correct size. *)
      match check_sizes cluster_data (length cluster_id) with
      | Raise e => (Some clusters, Raise e)
      | Ok _ =>
          (* Add clustering information. *)
          match amin cluster_id, amax cluster_id with
          | Ok start, Ok m =>
              (* end = numpy.amax(cluster_id) + 1 *)
              match for_each (range start (int64_wrap (m + 1)))
                      (add_cluster cluster_id cluster_data)
                      (clusters, 0%Z) with
              | ((c, n), Ok _) =>
                  (Some (ClustersGrp (groups c) (Some (n - 1)%Z) (info c)), Ok ())
              | ((c, n), Raise e) => (Some c, Raise e)
              end
          | Raise e, _ | _, Raise e => (Some clusters, Raise e)
          end
      end
  end.

(** ** Reading the container *)

Definition getNClusters `{Numpy} (h : hdf5) : result Z :=
  c ← getClusters h;
  match n_clusters c with Some n => Ok n | None => Raise (KeyError "n_clusters") end.

Definition getClusteringInfo `{Numpy} (h : hdf5) : result string :=
  c ← getClusters h;
  match info c with Some s => Ok s | None => Raise (KeyError "info") end.

Definition setClusteringInfo `{Numpy} (h : hdf5) (text : string) : hdf5 * result unit :=
  match getClusters h with
  | Ok c => (Some (ClustersGrp (groups c) (n_clusters c) (Some text)), Ok ())
  | Raise e => (h, Raise e)
  end.

(** [None] is the value Python returns when the [if] falls through. *)
Definition getClusterGroup `{Numpy} (h : hdf5) (index : Z) : result (option cl_grp) :=
  let cl_name := getClusterName index in
  c ← getClusters h;
  if bool_decide (is_Some (groups c !! cl_name)) then
    c' ← getClusters h;
    match groups c' !! cl_name with
    | Some g => Ok (Some g)
    | None => Raise (KeyError cl_name)
    end
  else Ok None.

(** Iterating over [None] is a [TypeError].  h5py iterates the members
    of a group by name; the names are distinct, so the dictionary built
    holds every dataset once. *)
Definition getCluster `{Numpy} (group : option cl_grp) : result (dict ndarray) :=
  match group with
  | None => Raise TypeError
  | Some g => Ok (foldl (λ cl_dict fa, dict_set fa.1 fa.2 cl_dict) [] (map_to_list (datasets g)))
  end.

(** A loop over local data: an exception ends it and nothing is kept. *)
Fixpoint fold_result {S A} (xs : list A) (body : A → S → result S) (s : S) : result S :=
  match xs with
  | [] => Ok s
  | x :: xs => s' ← body x s; fold_result xs body s'
  end.

(** ** getClusterData *)

(** [for field in locs: cl[field] = numpy.zeros(cl_size, locs[field].dtype)] *)
Definition alloc_fields `{Numpy} (cl_size : nat) (locs : dict ndarray) (cl : dict ndarray)
    : dict ndarray :=
  foldl (λ cl fa, dict_set fa.1 (zeros cl_size (dtype_of fa.2)) cl) cl locs.

(** [cl[field][i] = locs[field][cl_dict["loc_id"][i]]] for one [field]. *)
Definition copy_field `{Numpy} (cl_dict : dict ndarray) (i : nat) (fa : string * ndarray)
    (cl : dict ndarray) : result (dict ndarray) :=
  loc_id ← dict_getitem "loc_id" cl_dict;
  k ← np_item loc_id (Z.of_nat i);
  v ← np_getitem fa.2 k;
  dst ← dict_getitem fa.1 cl;
  dst' ← np_setitem dst i v;
  Ok (dict_set fa.1 dst' cl).

(** The body of [for i in range(cl_size)].  The two branches of the
    source differ in the key field ("frame" or "track_id") and in the
    store method called; [fetch] is that call. *)
Definition join_member `{Numpy} (fetch : Z → result (pydict ndarray)) (cl_dict : dict ndarray)
    (key : string) (cl_size : nat) (i : nat) (cl : dict ndarray) : result (dict ndarray) :=
  ids ← dict_getitem key cl_dict;
  id ← np_item ids (Z.of_nat i);
  locs ← fetch (to_int id);
  let cl := if dict_is_empty cl then alloc_fields cl_size (items locs) cl else cl in
  fold_result (items locs) (copy_field cl_dict i) cl.

Definition getClusterData `{RecordStore} (h : hdf5) (index : Z) (fields : option (list string))
    : result (dict ndarray) :=
  let cl : dict ndarray := [] in
  (* Get the cluster data. *)
  grp ← getClusterGroup h index;
  cl_dict ← getCluster grp;
  if dict_is_empty cl_dict then Ok cl
  else
    (* Is the data for localizations or tracks? *)
    cl ← (if dict_mem "frame" cl_dict then
            frame ← dict_getitem "frame" cl_dict;
            let cl_size := size_of frame in
            fold_result (seq 0 cl_size)
              (join_member (λ f, getLocalizationsInFrame f true fields) cl_dict "frame" cl_size) cl
          else
            track_id ← dict_getitem "track_id" cl_dict;
            let cl_size := size_of track_id in
            fold_result (seq 0 cl_size)
              (join_member (λ t, getTracksByIndex t fields) cl_dict "track_id" cl_size) cl);
    (* Also add the cluster data arrays. *)
    Ok (foldl (λ cl fa, dict_set fa.1 fa.2 cl) cl cl_dict).

(** ** clustersIterator *)

(** The body of [for i in range(start, self.getNClusters() + 1)].  The
    generator is run to its end on the file as it is when the iteration
    starts. *)
Fixpoint iterate_clusters `{RecordStore} (h : hdf5) (fields : option (list string))
    (min_size : Z) (indices : list Z) : gen (Z * dict ndarray) :=
  match indices with
  | [] => ([], None)
  | i :: rest =>
      match getClusterGroup h i with
      | Raise e => ([], Some e)
      | Ok None => ([], Some AttributeError)
      | Ok (Some cl_grp) =>
          match cl_size cl_grp with
          | None => ([], Some (KeyError "cl_size"))
          | Some size =>
              if bool_decide (size > min_size)%Z then
                match getClusterData h i fields with
                | Raise e => ([], Some e)
                | Ok cl =>
                    let '(ys, ending) := iterate_clusters h fields min_size rest in
                    ((i, cl) :: ys, ending)
                end
              else iterate_clusters h fields min_size rest
          end
      end
  end.

Definition clustersIterator `{RecordStore} (h : hdf5) (fields : option (list string))
    (min_size : Z) (skip_unclustered : bool) : gen (Z * dict ndarray) :=
  if negb (hasClusters h) then ([], None)
  else
    let start := if negb skip_unclustered then 0%Z else 1%Z in
    match getNClusters h with
    | Raise e => ([], Some e)
    | Ok n => iterate_clusters h fields min_size (range start (n + 1))
    end.

(** ** getDataForClustering *)

(** The arrays filled by the loops: the write position [start], the
    key array ([track_id] or [frame]) and the six output arrays. *)
Record columns `{Numpy} : Type := Columns {
  col_start : nat;
  col_key : ndarray;
  col_loc_id : ndarray;
  col_x : ndarray;
  col_y : ndarray;
  col_z : ndarray;
  col_c : ndarray
}.
Arguments Columns {_} col_start col_key col_loc_id col_x col_y col_z col_c.

(** [arr * s] *)
Definition scale `{Numpy} (arr : ndarray) (s : value) : list value := (λ v, mul v s) <$> data arr.

(** The body of [for i, tracks in enumerate(self.tracksIterator(...))]. *)
Definition load_tracks `{Numpy} (pix_to_nm : value) (ignore_z : bool)
    (it : nat * pydict ndarray) (s : columns) : result columns :=
  let '(i, tracks) := it in
  let start := col_start s in
  tx ← dict_getitem "x" (items tracks);
  let n_tracks := size_of tx in
  let stop := (start + n_tracks)%nat in
  loc_id ← slice_assign (col_loc_id s) start stop (arange n_tracks);
  let track_id := slice_fill (col_key s) start stop (of_int (Z.of_nat i)) in
  x ← slice_assign (col_x s) start stop (scale tx pix_to_nm);
  ty ← dict_getitem "y" (items tracks);
  y ← slice_assign (col_y s) start stop (scale ty pix_to_nm);
  z ← (if negb ignore_z then
         tz ← dict_getitem "z" (items tracks);
         slice_assign (col_z s) start stop (scale tz f1000)
       else Ok (col_z s));
  tc ← dict_getitem "category" (items tracks);
  c ← slice_assign (col_c s) start stop (data tc);
  Ok (Columns (start + n_tracks) track_id loc_id x y z c).

(** The body of [for f_num, locs in self.localizationsIterator(...)]. *)
Definition load_locs `{Numpy} (pix_to_nm : value) (ignore_z : bool)
    (it : Z * pydict ndarray) (s : columns) : result columns :=
  let '(f_num, locs) := it in
  let start := col_start s in
  lx ← dict_getitem "x" (items locs);
  let n_locs := size_of lx in
  let stop := (start + n_locs)%nat in
  let frame := slice_fill (col_key s) start stop (of_int f_num) in
  loc_id ← slice_assign (col_loc_id s) start stop (arange n_locs);
  x ← slice_assign (col_x s) start stop (scale lx pix_to_nm);
  ly ← dict_getitem "y" (items locs);
  y ← slice_assign (col_y s) start stop (scale ly pix_to_nm);
  z ← (if negb ignore_z then
         lz ← dict_getitem "z" (items locs);
         slice_assign (col_z s) start stop (scale lz f1000)
       else Ok (col_z s));
  lc ← dict_getitem "category" (items locs);
  c ← slice_assign (col_c s) start stop (data lc);
  Ok (Columns (start + n_locs) frame loc_id x y z c).

(** Running a loop over a generator: the exception that ends the
    generator escapes once its elements are consumed. *)
Definition for_gen {S A} (g : gen A) (body : A → S → result S) (s : S) : result S :=
  s' ← fold_result g.1 body s;
  match g.2 with Some e => Raise e | None => Ok s' end.

Definition enumerate {A} (g : gen A) : gen (nat * A) := (zip (seq 0 (length g.1)) g.1, g.2).

Definition getDataForClustering `{RecordStore} (ignore_z : bool)
    : result (ndarray * ndarray * ndarray * ndarray * dict ndarray) :=
  let pix_to_nm := getPixelSize in
  let cluster_data : dict ndarray := [] in
  (* Load tracks. *)
  if hasTracks then
    let total_tracks := getNTracks in
    let s0 := Columns 0 (zeros total_tracks int_) (zeros total_tracks int_)
                (zeros total_tracks float64) (zeros total_tracks float64)
                (zeros total_tracks float64) (zeros total_tracks int32) in
    s ← for_gen (enumerate (tracksIterator (Some ["x"; "y"; "z"; "category"])))
          (load_tracks pix_to_nm ignore_z) s0;
    let cluster_data := dict_set "loc_id" (col_loc_id s) cluster_data in
    let cluster_data := dict_set "track_id" (col_key s) cluster_data in
    Ok (col_x s, col_y s, col_z s, col_c s, cluster_data)
  (* Load localizations. *)
  else
    let total_locs := getNLocalizations in
    let s0 := Columns 0 (zeros total_locs int_) (zeros total_locs int_)
                (zeros total_locs float64) (zeros total_locs float64)
                (zeros total_locs float64) (zeros total_locs int32) in
    let fields := ["x"; "y"; "category"] in
    let fields := if negb ignore_z then fields ++ ["z"] else fields in
    s ← for_gen (localizationsIterator (Some fields)) (load_locs pix_to_nm ignore_z) s0;
    let cluster_data := dict_set "frame" (col_key s) cluster_data in
    let cluster_data := dict_set "loc_id" (col_loc_id s) cluster_data in
    Ok (col_x s, col_y s, col_z s, col_c s, cluster_data).

(** ** Vocabulary of the statements *)

(** The record positions carrying cluster id [i]. *)
Definition positions (a : list Z) (i : Z) : list nat :=
  filter (λ p, a !! p = Some i) (seq 0 (length a)).

(** The number of records carrying cluster id [i]. *)
Definition members (a : list Z) (i : Z) : nat := length (filter (λ x, x = i) a).

(** The ids between the smallest and the largest id of [a] that occur
    in [a], in ascending order. *)
Definition occupied_ids (a : list Z) : list Z :=
  match amin a, amax a with
  | Ok lo, Ok hi => filter (λ i, i ∈ a) (range lo (hi + 1))
  | _, _ => []
  end.

(** The ids are 64-bit integers other than the largest one, so that
    [numpy.amax(cluster_id) + 1] does not wrap around. *)
Definition below_max (a : list Z) : Prop :=
  Forall (λ x, (- 2 ^ 63 ≤ x < 2 ^ 63 - 1)%Z) a.

(** The ids of the range the loop scans that occur in [a]. *)
Definition stored_ids (a : list Z) : list Z :=
  match amin a, amax a with
  | Ok lo, Ok hi => filter (λ i, i ∈ a) (range lo (int64_wrap (hi + 1)))
  | _, _ => []
  end.

(** A field name that h5py takes as the name of a member of the
    group: it is not empty, it is not the name of the group itself
    and it has no slash, which h5py reads as a path. *)
Fixpoint has_slash (s : string) : bool :=
  match s with
  | EmptyString => false
  | String c s => if Ascii.eqb c "/"%char then true else has_slash s
  end.

Definition plain_name (s : string) : bool :=
  negb (String.eqb s "") && negb (String.eqb s ".") && negb (has_slash s).

Definition plain_names {V} (b : dict V) : Prop :=
  Forall (λ fa : string * V, plain_name fa.1 = true) b.

(** The elements of [xs] at the given positions. *)
Definition gather {A} (xs : list A) (ps : list nat) : list A := omap (λ p, xs !! p) ps.

(** The subsequence of an auxiliary array for the records of id [i]. *)
Definition masked `{Numpy} (a : list Z) (i : Z) (arr : ndarray) : ndarray :=
  NdArray (dtype_of arr) (gather (data arr) (positions a i)).

(** The cross-reference group of id [i]. *)
Definition group_of `{Numpy} (a : list Z) (b : dict ndarray) (i : Z) : cl_grp :=
  ClGrp (list_to_map ((λ fa, (fa.1, masked a i fa.2)) <$> b)) (Some (Z.of_nat (members a i))).

(** Every auxiliary array is as long as the assignment. *)
Definition conforming `{Numpy} (a : list Z) (b : dict ndarray) : Prop :=
  Forall (λ fa, size_of fa.2 = length a) b.

(** The groups of the given ids under the names [cl_<n>], [cl_<n+1>], ... *)
Definition placed `{Numpy} (a : list Z) (b : dict ndarray) (n : Z) (ids : list Z)
    : gmap string cl_grp :=
  list_to_map (imap (λ k i, (getClusterName (n + Z.of_nat k), group_of a b i)) ids).

(** ** A concrete numpy and concrete inputs

    Integer elements, three element types, exact arithmetic: used to
    run the definitions on examples. *)

Inductive zdtype : Type := DInt | DInt32 | DFloat.

Definition z_numpy : Numpy := {|
  value := Z;
  dtype := zdtype;
  zero := λ _, 0%Z;
  cast := λ _ v, v;
  to_int := λ v, v;
  as_index := λ v, Some v;
  of_int := λ v, v;
  mul := Z.mul;
  f1000 := 1000%Z;
  float64 := DFloat;
  int_ := DInt;
  int32 := DInt32
|}.

Definition zarr (dt : zdtype) (xs : list Z) : @ndarray z_numpy := @NdArray z_numpy dt xs.

(** Four localizations in two frames; ids -1 (unclustered), 1 and 3. *)
Definition ex_ids : list Z := [1; -1; 1; 3]%Z.

Definition ex_data : pydict (@ndarray z_numpy) :=
  PyDict [("frame", zarr DInt [0; 0; 1; 1]%Z); ("loc_id", zarr DInt [0; 1; 0; 1]%Z)] I.

(** A bundle whose second field is too short. *)
Definition ex_bad_data : pydict (@ndarray z_numpy) :=
  PyDict [("frame", zarr DInt [0; 0; 1; 1]%Z); ("loc_id", zarr DInt [0; 1; 0]%Z)] I.

Definition ex_no_data : pydict (@ndarray z_numpy) := PyDict [] I.



(** The file after a partition of the example. *)
Definition ex_file : @hdf5 z_numpy := (@addClusters z_numpy None ex_ids ex_data).1.

(** A group without members, as a file may hold it. *)
Definition ex_hollow_group : @cl_grp z_numpy :=
  @ClGrp z_numpy (<["frame" := zarr DInt []]> (<["loc_id" := zarr DInt []]> ∅)) (Some 0%Z).

Definition ex_hollow_file : @hdf5 z_numpy :=
  Some (@ClustersGrp z_numpy (<["cl_0" := ex_hollow_group]> ∅) (Some (-1)%Z) None).

(** The single-record lookup of the reconstruction: the record at
    offset [k] of the data set [locs], field by field, each value with
    the element type of its field. *)
Fixpoint record_at `{Numpy} (locs : dict ndarray) (k : value) : result (dict (dtype * value)) :=
  match locs with
  | [] => Ok []
  | (f, arr) :: locs =>
      v ← np_getitem arr k;
      r ← record_at locs k;
      Ok ((f, (dtype_of arr, v)) :: r)
  end.

(** The record of member [i] of a cross-reference with key array [ids]
    and offsets [loc_id]; [fetch] reads the data set of a key. *)
Definition single_record `{Numpy} (fetch : Z → result (pydict ndarray))
    (ids loc_id : ndarray) (i : nat) : result (dict (dtype * value)) :=
  id ← np_item ids (Z.of_nat i);
  locs ← fetch (to_int id);
  k ← np_item loc_id (Z.of_nat i);
  record_at (items locs) k.

(** A store of localizations: frame [f] holds two localizations. *)
Definition ex_frame (f : Z) : pydict (@ndarray z_numpy) :=
  PyDict [("x", zarr DFloat [10 * f; 10 * f + 1]%Z);
          ("y", zarr DFloat [20 * f; 20 * f + 1]%Z);
          ("z", zarr DFloat [f; f + 1]%Z);
          ("category", zarr DInt32 [0; 1]%Z)] I.

Definition z_store : @RecordStore z_numpy := {|
  getLocalizationsInFrame := λ f _ _, Ok (ex_frame f);
  getTracksByIndex := λ _ _, Raise (KeyError "tracks");
  getPixelSize := 160%Z;
  hasTracks := false;
  getNTracks := 0;
  getNLocalizations := 4;
  tracksIterator := λ _, ([], None);
  localizationsIterator := λ _, ([(0%Z, ex_frame 0); (1%Z, ex_frame 1)], None)
|}.

(** The file after a partition with an empty bundle: groups without
    datasets. *)
Definition ex_bare_file : @hdf5 z_numpy := (@addClusters z_numpy None ex_ids ex_no_data).1.

(** Mode detection: a cross-reference with a "frame" field is in
    localization mode, any other in track mode. *)
Definition localization_mode `{Numpy} (g : cl_grp) : bool :=
  bool_decide (is_Some (datasets g !! "frame")).

Definition key_field `{Numpy} (g : cl_grp) : string :=
  if localization_mode g then "frame" else "track_id".

(** The store method of the mode, with the arguments the source passes. *)
Definition fetch_records `{RecordStore} (g : cl_grp) (fields : option (list string))
    : Z → result (pydict ndarray) :=
  λ id, if localization_mode g then getLocalizationsInFrame id true fields
        else getTracksByIndex id fields.

(** The output arrays after the first [s] of [n] members: no array
    before the first member; afterwards one array of length [n] per
    field of the first record, of the element type that record has for
    the field, whose position [i < s] holds the value of member [i]. *)
Definition filled `{Numpy} (R : nat → dict (dtype * value)) (n s : nat) (cl : dict ndarray)
    : Prop :=
  ∀ f, match (if decide (s = 0) then None else dict_get f (R 0)) with
       | None => dict_get f cl = None
       | Some (dt, _) =>
           ∃ out, dict_get f cl = Some out ∧ dtype_of out = dt ∧ size_of out = n ∧
             ∀ i, i < s → data out !! i = (λ r, cast dt r.2) <$> dict_get f (R i)
       end.

(** The container of the example file and its cluster of index 1 (the
    records of id 1: the first localization of frame 0 and of frame 1). *)
Definition ex_container : @clusters_grp z_numpy := default (@empty_clusters_grp z_numpy) ex_file.

Definition ex_cluster : @cl_grp z_numpy :=
  default (@empty_cl_grp z_numpy) (groups ex_container !! "cl_1").

Definition ex_records (i : nat) : dict (zdtype * Z) :=
  match @single_record z_numpy (@fetch_records z_numpy z_store ex_cluster None)
          (zarr DInt [0; 1]%Z) (zarr DInt [0; 0]%Z) i with
  | Ok r => r
  | Raise _ => []
  end.

Definition ex_bare_container : @clusters_grp z_numpy :=
  default (@empty_clusters_grp z_numpy) ex_bare_file.

(** The [cl_size] stored for the group of index [i], if there is one. *)
Definition stored_size `{Numpy} (c : clusters_grp) (i : Z) : option Z :=
  g ← groups c !! getClusterName i; cl_size g.

(** The group of index [i] has a stored size strictly greater than
    [min_size]. *)
Definition exceeds `{Numpy} (c : clusters_grp) (min_size : Z) (i : Z) : bool :=
  match stored_size c i with
  | Some s => bool_decide (s > min_size)%Z
  | None => false
  end.

(** The generator that yields the given results in order; the first
    exception ends it. *)
Fixpoint yield_all {A} (rs : list (Z * result A)) : gen (Z * A) :=
  match rs with
  | [] => ([], None)
  | (i, Ok a) :: rs => let '(ys, ending) := yield_all rs in ((i, a) :: ys, ending)
  | (i, Raise e) :: _ => ([], Some e)
  end.

(** ** Vocabulary for getDataForClustering *)

(** The elements of field [f] of a data set. *)
Definition column `{Numpy} (f : string) (d : dict ndarray) : list value :=
  from_option data [] (dict_get f d).

(** The number of records of a sequence of data sets. *)
Definition records_of `{Numpy} (ds : list (pydict ndarray)) : nat :=
  length (ds ≫= λ d, column "x" (items d)).

(** Field [f] of all data sets, in order, every element multiplied by
    [factor] and stored in an array of type [float64]. *)
Definition converted `{Numpy} (f : string) (factor : value) (ds : list (pydict ndarray))
    : list value :=
  ds ≫= (λ d, (λ v, cast float64 (mul v factor)) <$> column f (items d)).

(** The data sets the store streams in the mode of the data set, with
    the fields the source requests. *)
Definition streamed `{RecordStore} (ignore_z : bool) : gen (pydict ndarray) :=
  if hasTracks then tracksIterator (Some ["x"; "y"; "z"; "category"])
  else
    let g := localizationsIterator
               (Some (if negb ignore_z then ["x"; "y"; "category"; "z"]
                      else ["x"; "y"; "category"])) in
    (snd <$> g.1, g.2).

(** The record count the store reports for the mode. *)
Definition store_total `{RecordStore} : nat := if hasTracks then getNTracks else getNLocalizations.

(** A data set has the fields read from it, all of one length. *)
Definition aligned `{Numpy} (need_z : bool) (d : dict ndarray) : Prop :=
  ∃ x y c, dict_get "x" d = Some x ∧ dict_get "y" d = Some y ∧
    dict_get "category" d = Some c ∧ size_of y = size_of x ∧ size_of c = size_of x ∧
    (need_z = true → ∃ z, dict_get "z" d = Some z ∧ size_of z = size_of x).

(** The loop state once the data sets [done] are loaded. *)
Definition loaded `{Numpy} (total : nat) (pix : value) (ignore_z : bool)
    (done : list (pydict ndarray)) (s : columns) : Prop :=
  let k := records_of done in
  let rest := replicate (total - k) (zero float64) in
  col_start s = k ∧
  col_x s = NdArray float64 (converted "x" pix done ++ rest) ∧
  col_y s = NdArray float64 (converted "y" pix done ++ rest) ∧
  col_z s = NdArray float64
              ((if ignore_z then replicate k (zero float64) else converted "z" f1000 done)
               ++ rest) ∧
  size_of (col_c s) = total ∧ size_of (col_loc_id s) = total ∧ size_of (col_key s) = total.

(** ** Further vocabulary and examples *)

(** A bundle that holds only the offsets: its groups have neither a
    "frame" nor a "track_id" field. *)
Definition ex_offsets_data : pydict (@ndarray z_numpy) :=
  PyDict [("loc_id", zarr DInt [0; 1; 0; 1]%Z)] I.

Definition ex_offsets_container : @clusters_grp z_numpy :=
  default (@empty_clusters_grp z_numpy) (@addClusters z_numpy None ex_ids ex_offsets_data).1.

(** The number of distinct ids of [a] that are smaller than [i]. *)
Definition rank (a : list Z) (i : Z) : nat :=
  size (filter (λ j, (j < i)%Z) (list_to_set a : gset Z)).

(** The records of the example store at the positions of the example
    bundle, read through the whole cross-reference arrays. *)
Definition ex_global_records (p : nat) : dict (zdtype * Z) :=
  match @single_record z_numpy
          (@fetch_records z_numpy z_store (@group_of z_numpy ex_ids ex_data 1%Z) None)
          (zarr DInt [0; 0; 1; 1]%Z) (zarr DInt [0; 1; 0; 1]%Z) p with
  | Ok r => r
  | Raise _ => []
  end.

(** All arrays of the loop state have [total] elements. *)
Definition sized `{Numpy} (total : nat) (s : columns) : Prop :=
  size_of (col_key s) = total ∧ size_of (col_loc_id s) = total ∧
  size_of (col_x s) = total ∧ size_of (col_y s) = total ∧
  size_of (col_z s) = total ∧ size_of (col_c s) = total ∧
  dtype_of (col_key s) = int_ ∧ dtype_of (col_loc_id s) = int_.

(** * Properties *)

(** ** Dictionaries *)

Lemma pydict_NoDup {V} (d : pydict V) : NoDup (items d).*1.
Proof. exact (bool_decide_unpack _ (items_nodup d)). Qed.

Lemma dict_get_None {V} (k : string) (d : dict V) : dict_get k d = None ↔ k ∉ d.*1.
Proof.
  induction d as [|[k' v] d IH]; simpl.
  - split; [intros _; apply not_elem_of_nil | done].
  - case_decide as Hk; subst.
    + split; [done | intros []; left].
    + rewrite IH, not_elem_of_cons. split; [intros ?; split; [congruence|done] | by intros [_ ?]].
Qed.

Lemma dict_get_Some_elem {V} (k : string) (v : V) (d : dict V) :
  dict_get k d = Some v → (k, v) ∈ d.
Proof.
  induction d as [|[k' v'] d IH]; simpl; [done|].
  case_decide; subst.
  - intros [= ->]. left.
  - intros ?. right. auto.
Qed.

Lemma dict_get_elem {V} (k : string) (v : V) (d : dict V) :
  NoDup d.*1 → (k, v) ∈ d → dict_get k d = Some v.
Proof.
  induction d as [|[k' v'] d IH]; simpl.
  - intros _ H. by apply elem_of_nil in H.
  - rewrite NoDup_cons. intros [Hk Hd] [[= -> ->]|Hin]%elem_of_cons.
    + by rewrite decide_True.
    + rewrite decide_False; [auto|].
      intros ->. apply Hk. apply list_elem_of_fmap. by exists (k, v).
Qed.

Lemma dict_get_list_to_map {V} (k : string) (d : dict V) :
  (list_to_map d : gmap string V) !! k = dict_get k d.
Proof.
  induction d as [|[k' v] d IH]; simpl; [done|].
  rewrite lookup_insert. by repeat case_decide.
Qed.

Lemma dict_get_set {V} (k k' : string) (v : V) (d : dict V) :
  dict_get k' (dict_set k v d) = if decide (k = k') then Some v else dict_get k' d.
Proof.
  induction d as [|[k0 v0] d IH]; simpl.
  - by repeat case_decide.
  - repeat (case_decide; simpl; subst); try done; by rewrite IH, ?decide_True, ?decide_False.
Qed.

Lemma dict_get_fmap {V W} (f : V → W) (k : string) (d : dict V) :
  dict_get k ((λ fa, (fa.1, f fa.2)) <$> d) = f <$> dict_get k d.
Proof.
  induction d as [|[k' v] d IH]; simpl; [done|]. by case_decide.
Qed.

(** ** Masks, positions and the range of ids *)

Lemma filter_fmap_comm {A B} (f : A → B) (P : B → Prop) `{!∀ x, Decision (P x)} (l : list A) :
  filter P (f <$> l) = f <$> filter (P ∘ f) l.
Proof.
  induction l as [|x l IH]; [done|].
  rewrite fmap_cons, !filter_cons; simpl. case_decide; by rewrite IH.
Qed.

Lemma positions_cons (x : Z) (a : list Z) (i : Z) :
  positions (x :: a) i = (if decide (x = i) then [0] else []) ++ (S <$> positions a i).
Proof.
  unfold positions. simpl length. rewrite <- cons_seq, <- fmap_S_seq, filter_cons; simpl.
  rewrite filter_fmap_comm.
  repeat case_decide; simplify_eq; done.
Qed.

Lemma members_positions (a : list Z) (i : Z) : members a i = length (positions a i).
Proof.
  induction a as [|x a IH]; [done|].
  rewrite positions_cons. unfold members in *. rewrite filter_cons, length_app, length_fmap, <- IH.
  by case_decide.
Qed.

Lemma members_pos (a : list Z) (i : Z) : (0 < members a i)%nat ↔ i ∈ a.
Proof.
  unfold members. induction a as [|x a IH]; simpl.
  - rewrite elem_of_nil. split; [lia | done].
  - rewrite filter_cons, elem_of_cons. case_decide; simpl; [|rewrite IH].
    + split; [auto | lia].
    + split; [auto | by intros [->|?]].
Qed.

Lemma elem_of_positions (a : list Z) (i : Z) (p : nat) : p ∈ positions a i ↔ a !! p = Some i.
Proof.
  unfold positions. rewrite list_elem_of_filter, elem_of_seq.
  split; [by intros [? _]|]. intros Hp. split; [done|].
  apply lookup_lt_Some in Hp. lia.
Qed.


Lemma count_nonzero_eq_mask (a : list Z) (i : Z) :
  count_nonzero (eq_mask a i) = Z.of_nat (members a i).
Proof.
  unfold count_nonzero, eq_mask, members. f_equal.
  induction a as [|x a IH]; [done|].
  rewrite fmap_cons, !filter_cons.
  case_bool_decide; repeat case_decide; simpl; congruence.
Qed.

Lemma length_eq_mask (a : list Z) (i : Z) : length (eq_mask a i) = length a.
Proof. apply length_fmap. Qed.

Lemma gather_cons_S {A} (y : A) (ys : list A) (ps : list nat) :
  gather (y :: ys) (S <$> ps) = gather ys ps.
Proof.
  unfold gather. induction ps as [|p ps IH]; simpl; [done|].
  destruct (ys !! p); [f_equal|]; apply IH.
Qed.

(** The boolean mask of the source selects the elements at the
    positions of the id. *)
Lemma select_gather {A} (xs : list A) (a : list Z) (i : Z) :
  length xs = length a → select xs (eq_mask a i) = gather xs (positions a i).
Proof.
  revert xs. induction a as [|x a IH]; intros [|y ys] Hlen; simplify_eq/=; try done.
  rewrite positions_cons.
  case_bool_decide; case_decide; try done; simpl.
  - unfold gather at 1. simpl. fold (gather (y :: ys) (S <$> positions a i)).
    by rewrite gather_cons_S, IH.
  - by rewrite gather_cons_S, IH.
Qed.

Lemma foldl_min_spec (x : Z) (xs : list Z) :
  foldl Z.min x xs ∈ x :: xs ∧ ∀ y, y ∈ x :: xs → (foldl Z.min x xs ≤ y)%Z.
Proof.
  revert x. induction xs as [|z xs IH]; intros x; simpl.
  - split; [left|]. intros y ->%list_elem_of_singleton. lia.
  - destruct (IH (x `min` z)%Z) as [Hin Hle]. split.
    + apply elem_of_cons in Hin as [->|Hin].
      * destruct (Z.min_spec x z) as [[_ ->]|[_ ->]]; [left | right; left].
      * by do 2 right.
    + intros y Hy. apply elem_of_cons in Hy as [->|Hy].
      * transitivity (x `min` z)%Z; [apply Hle; left | lia].
      * apply elem_of_cons in Hy as [->|Hy].
        -- transitivity (x `min` z)%Z; [apply Hle; left | lia].
        -- apply Hle. by right.
Qed.

Lemma foldl_max_spec (x : Z) (xs : list Z) :
  foldl Z.max x xs ∈ x :: xs ∧ ∀ y, y ∈ x :: xs → (y ≤ foldl Z.max x xs)%Z.
Proof.
  revert x. induction xs as [|z xs IH]; intros x; simpl.
  - split; [left|]. intros y ->%list_elem_of_singleton. lia.
  - destruct (IH (x `max` z)%Z) as [Hin Hle]. split.
    + apply elem_of_cons in Hin as [->|Hin].
      * destruct (Z.max_spec x z) as [[_ ->]|[_ ->]]; [right; left | left].
      * by do 2 right.
    + intros y Hy. apply elem_of_cons in Hy as [->|Hy].
      * transitivity (x `max` z)%Z; [lia | apply Hle; left].
      * apply elem_of_cons in Hy as [->|Hy].
        -- transitivity (x `max` z)%Z; [lia | apply Hle; left].
        -- apply Hle. by right.
Qed.

Lemma amin_spec (a : list Z) (lo : Z) :
  amin a = Ok lo → lo ∈ a ∧ ∀ y, y ∈ a → (lo ≤ y)%Z.
Proof. destruct a as [|x xs]; [done|]. intros [= <-]. apply foldl_min_spec. Qed.

Lemma amax_spec (a : list Z) (hi : Z) :
  amax a = Ok hi → hi ∈ a ∧ ∀ y, y ∈ a → (y ≤ hi)%Z.
Proof. destruct a as [|x xs]; [done|]. intros [= <-]. apply foldl_max_spec. Qed.

Lemma amin_amax_nonempty (a : list Z) : a ≠ [] → ∃ lo hi, amin a = Ok lo ∧ amax a = Ok hi.
Proof. destruct a; [done|]. intros _. by eexists _, _. Qed.

Lemma elem_of_occupied_ids (a : list Z) (i : Z) : i ∈ occupied_ids a ↔ i ∈ a.
Proof.
  unfold occupied_ids. destruct a as [|x xs] eqn:Ha; [done|]. rewrite <- Ha.
  assert (a ≠ []) as (lo & hi & Hlo & Hhi)%amin_amax_nonempty by (by subst).
  rewrite Hlo, Hhi, list_elem_of_filter. unfold range. rewrite elem_of_seqZ.
  split; [by intros [? _]|]. intros Hi. split; [done|].
  apply amin_spec in Hlo as [_ Hlo]. apply amax_spec in Hhi as [_ Hhi].
  specialize (Hlo _ Hi). specialize (Hhi _ Hi). lia.
Qed.

Lemma NoDup_occupied_ids (a : list Z) : NoDup (occupied_ids a).
Proof.
  unfold occupied_ids. destruct (amin a), (amax a); try apply NoDup_nil_2.
  apply NoDup_filter, NoDup_seqZ.
Qed.

Lemma getClusterName_inj : Inj (=) (=) getClusterName.
Proof.
  intros i j Hij. unfold getClusterName in Hij.
  apply (inj (String.app "cl_")) in Hij. by apply (inj pretty) in Hij.
Qed.

(** ** addClusters: the loops *)

Section addClusters_loops.
Context `{Numpy}.

Lemma cl_grp_eta (g : cl_grp) : ClGrp (datasets g) (cl_size g) = g.
Proof. by destruct g. Qed.

Lemma clusters_grp_eta (c : clusters_grp) : ClustersGrp (groups c) (n_clusters c) (info c) = c.
Proof. by destruct c. Qed.

Lemma check_sizes_Ok (b : dict ndarray) (n : nat) :
  check_sizes b n = Ok () ↔ Forall (λ fa, size_of fa.2 = n) b.
Proof.
  induction b as [|[f arr] b IH]; simpl.
  - split; [constructor | done].
  - rewrite Forall_cons; simpl. case_decide; [rewrite IH; tauto|].
    split; [done | by intros [? _]].
Qed.

(** The size check fails on the first array, in dictionary order,
    whose length differs. *)
Lemma check_sizes_Raise (b : dict ndarray) (n : nat) (e : exn) :
  check_sizes b n = Raise e →
  ∃ b1 f arr b2, b = b1 ++ (f, arr) :: b2 ∧ Forall (λ fa, size_of fa.2 = n) b1 ∧
    size_of arr ≠ n ∧ e = AssertionError ("Incorrect size for data " +:+ f).
Proof.
  induction b as [|[f arr] b IH]; simpl; [done|].
  case_decide as Hs.
  - intros (b1 & f' & arr' & b2 & -> & ? & ? & ->)%IH.
    exists ((f, arr) :: b1), f', arr', b2. split_and!; try done. by constructor.
  - intros [= <-]. by exists [], f, arr, b.
Qed.

Lemma check_sizes_total (b : dict ndarray) (n : nat) :
  ¬ Forall (λ fa, size_of fa.2 = n) b → ∃ e, check_sizes b n = Raise e.
Proof.
  rewrite <- check_sizes_Ok. destruct (check_sizes b n) as [[]|e]; [done|]. by exists e.
Qed.

(** The inner loop stores the selected part of every field. *)
Lemma for_each_add_field (m : list bool) (b : dict ndarray) (g : cl_grp) :
  NoDup b.*1 →
  Forall (λ fa, size_of fa.2 = length m) b →
  (∀ f, f ∈ b.*1 → datasets g !! f = None) →
  for_each b (add_field m) g =
    (ClGrp (list_to_map ((λ fa, (fa.1, NdArray (dtype_of fa.2) (select (data fa.2) m))) <$> b)
            ∪ datasets g) (cl_size g), Ok ()).
Proof.
  revert g. induction b as [|[f arr] b IH]; intros g Hnd Hlen Hfresh.
  - simpl. by rewrite (left_id_L ∅ (∪)), cl_grp_eta.
  - cbn [for_each]. rewrite fmap_cons in Hnd, Hfresh. cbn [fst] in Hnd, Hfresh.
    apply NoDup_cons in Hnd as [Hf Hnd]. apply Forall_cons in Hlen as [Hlen1 Hlen].
    cbn [snd] in Hlen1. unfold add_field at 1, bool_index. cbn [fst snd].
    rewrite decide_True by done.
    unfold create_dataset. rewrite Hfresh by left. rewrite IH; try done.
    + cbn [datasets cl_size]. rewrite fmap_cons, list_to_map_cons. cbn [fst snd].
      f_equal. f_equal. rewrite <- insert_union_l. symmetry. apply insert_union_r.
      rewrite dict_get_list_to_map. apply dict_get_None.
      by rewrite <- list_fmap_compose.
    + intros f' Hf'. cbn [datasets]. rewrite lookup_insert_ne; [apply Hfresh; by right|].
      intros ->. done.
Qed.

Lemma masked_select (a : list Z) (b : dict ndarray) (i : Z) :
  conforming a b →
  (λ fa : string * ndarray, (fa.1, NdArray (dtype_of fa.2) (select (data fa.2) (eq_mask a i))))
    <$> b = (λ fa, (fa.1, masked a i fa.2)) <$> b.
Proof.
  intros Hb. apply Forall_fmap_ext. eapply Forall_impl; [exact Hb|].
  intros [f arr] Hlen; simpl in *. unfold masked. by rewrite select_gather.
Qed.

Lemma placed_cons (a : list Z) (b : dict ndarray) (n i : Z) (ids : list Z) :
  placed a b n (i :: ids) = <[getClusterName n := group_of a b i]> (placed a b (n + 1) ids).
Proof.
  unfold placed. rewrite imap_cons; simpl. rewrite Z.add_0_r. do 2 f_equal.
  apply imap_ext. intros k x _; simpl. do 2 f_equal. lia.
Qed.

Lemma placed_lookup (a : list Z) (b : dict ndarray) (n : Z) (ids : list Z) (j : Z) :
  placed a b n ids !! getClusterName j =
    if decide (n ≤ j)%Z then group_of a b <$> ids !! Z.to_nat (j - n) else None.
Proof.
  revert n. induction ids as [|i ids IH]; intros n.
  - unfold placed; simpl. rewrite lookup_empty. by case_decide.
  - rewrite placed_cons, lookup_insert, IH.
    case_decide as Hn.
    + apply (inj getClusterName) in Hn as ->. rewrite decide_True, Z.sub_diag by lia. done.
    + repeat case_decide; try lia; try done.
      * replace (Z.to_nat (j - n)) with (S (Z.to_nat (j - (n + 1)))) by lia. done.
      * assert (j = n) as -> by lia. done.
Qed.


(** The outer loop: the ids of the range that occur in [a] receive
    consecutive names, starting at the current counter. *)
Lemma for_each_add_cluster (a : list Z) (b : dict ndarray) (ids : list Z)
    (c : clusters_grp) (n : Z) :
  NoDup b.*1 → conforming a b →
  (∀ j, (n ≤ j)%Z → groups c !! getClusterName j = None) →
  for_each ids (add_cluster a b) (c, n) =
    ((ClustersGrp (placed a b n (filter (λ i, i ∈ a) ids) ∪ groups c) (n_clusters c) (info c),
      (n + Z.of_nat (length (filter (λ i, i ∈ a) ids)))%Z), Ok ()).
Proof.
  intros Hnd Hb. revert c n. induction ids as [|i ids IH]; intros c n Hfresh.
  - simpl. unfold placed; simpl. by rewrite (left_id_L ∅ (∪)), clusters_grp_eta, Z.add_0_r.
  - simpl. rewrite filter_cons. rewrite count_nonzero_eq_mask.
    destruct (decide (i ∈ a)) as [Hi|Hi].
    + rewrite bool_decide_true by (apply members_pos in Hi; lia).
      rewrite Hfresh by lia.
      rewrite for_each_add_field; try done.
      * simpl. rewrite (right_id_L ∅ (∪)), masked_select by done.
        fold (group_of a b i). unfold set_cl_size; simpl.
        change (ClGrp _ (Some (Z.of_nat (members a i)))) with (group_of a b i).
        rewrite IH; simpl.
        -- rewrite placed_cons. f_equal. f_equal; [|lia]. f_equal.
           rewrite <- insert_union_l. symmetry. apply insert_union_r.
           rewrite placed_lookup. rewrite decide_False by lia. done.
        -- intros j Hj. rewrite lookup_insert_ne; [apply Hfresh; lia|].
           intros ?%(inj getClusterName). lia.
      * eapply Forall_impl; [exact Hb|]. intros ? ->. by rewrite length_eq_mask.
    + rewrite bool_decide_false by (rewrite <- members_pos in Hi; lia).
      by apply IH.
Qed.

(** A well-formed call stores the groups of the ids its loop scans. *)
Lemma addClusters_stored (h : hdf5) (a : list Z) (b : pydict ndarray) :
  a ≠ [] → conforming a b →
  addClusters h a b =
    (Some (ClustersGrp (placed a b 0 (stored_ids a))
                       (Some (Z.of_nat (length (stored_ids a)) - 1)%Z) None), Ok ()).
Proof.
  intros Ha Hb. unfold addClusters.
  assert ((if hasClusters h then None else h) = None) as -> by (by destruct h).
  apply check_sizes_Ok in Hb as Hchk. rewrite Hchk.
  unfold stored_ids. destruct (amin_amax_nonempty a Ha) as (lo & hi & -> & ->).
  rewrite for_each_add_cluster; try done.
  - simpl. by rewrite (right_id_L ∅ (∪)), Z.add_0_l.
  - apply pydict_NoDup.
Qed.

Lemma int64_wrap_id (z : Z) : (- 2 ^ 63 ≤ z < 2 ^ 63)%Z → int64_wrap z = z.
Proof. intros Hz. unfold int64_wrap. rewrite Z.mod_small; lia. Qed.

Lemma stored_ids_below_max (a : list Z) : below_max a → stored_ids a = occupied_ids a.
Proof.
  intros Hmax. unfold stored_ids, occupied_ids.
  destruct (amin a) as [lo|]; [|done]. destruct (amax a) as [hi|] eqn:Hhi; [|done].
  apply amax_spec in Hhi as [Hhi _]. eapply Forall_forall in Hmax; [|exact Hhi].
  rewrite int64_wrap_id; [done|]. cbn beta in Hmax. lia.
Qed.

(** Without wrap-around these are the occupied ids. *)
Lemma addClusters_Ok (h : hdf5) (a : list Z) (b : pydict ndarray) :
  a ≠ [] → conforming a b → below_max a →
  addClusters h a b =
    (Some (ClustersGrp (placed a b 0 (occupied_ids a))
                       (Some (Z.of_nat (length (occupied_ids a)) - 1)%Z) None), Ok ()).
Proof.
  intros Ha Hb Hmax. rewrite addClusters_stored by done. by rewrite stored_ids_below_max.
Qed.

Lemma elem_of_stored_ids (a : list Z) (i : Z) : i ∈ stored_ids a → i ∈ a.
Proof.
  unfold stored_ids. destruct (amin a), (amax a); try (intros Hi; by apply elem_of_nil in Hi).
  by intros [Hi _]%list_elem_of_filter.
Qed.

(** A call that returns normally was well-formed. *)
Lemma addClusters_Ok_inv (h h' : hdf5) (a : list Z) (b : pydict ndarray) :
  addClusters h a b = (h', Ok ()) → a ≠ [] ∧ conforming a b.
Proof.
  unfold addClusters.
  assert ((if hasClusters h then None else h) = None) as -> by (by destruct h).
  destruct (check_sizes b (length a)) as [[]|e] eqn:Hchk; [|done].
  apply check_sizes_Ok in Hchk. destruct a; [done|]. done.
Qed.
End addClusters_loops.

(** ** addClusters: the stored partition *)

Section addClusters_properties.
Context `{Numpy}.


Lemma length_occupied_ids (a : list Z) :
  length (occupied_ids a) = size (list_to_set a : gset Z).
Proof.
  rewrite <- (size_list_to_set (C := gset Z)) by apply NoDup_occupied_ids.
  f_equal. apply set_eq. intros i.
  by rewrite !elem_of_list_to_set, elem_of_occupied_ids.
Qed.

Lemma occupied_ids_head (a : list Z) (lo : Z) :
  amin a = Ok lo → ∃ ids, occupied_ids a = lo :: ids.
Proof.
  intros Hlo. unfold occupied_ids. rewrite Hlo.
  destruct a as [|x xs] eqn:Ha; [done|]. rewrite <- Ha in *.
  assert (a ≠ []) as (lo' & hi & Hlo' & Hhi)%amin_amax_nonempty by (by subst).
  rewrite Hhi. apply amin_spec in Hlo as [Hin Hle].
  apply amax_spec in Hhi as [_ Hhi]. specialize (Hhi _ Hin).
  unfold range. rewrite seqZ_cons by lia. rewrite filter_cons, decide_True by done.
  by eexists.
Qed.


Lemma datasets_group_of (a : list Z) (b : dict ndarray) (i : Z) (f : string) :
  datasets (group_of a b i) !! f = masked a i <$> dict_get f b.
Proof. unfold group_of; simpl. by rewrite dict_get_list_to_map, dict_get_fmap. Qed.



End addClusters_properties.
Lemma ex_ids_nonempty : ex_ids ≠ [].
Proof. discriminate. Defined.

Lemma ex_data_conforming : @conforming z_numpy ex_ids ex_data.
Proof. repeat constructor. Defined.

Lemma ex_ids_below_max : below_max ex_ids.
Proof. repeat constructor; (discriminate || reflexivity). Defined.

Lemma ex_data_plain_names : plain_names (items ex_data).
Proof. repeat constructor. Defined.





Lemma ex_file_eq : @addClusters z_numpy None ex_ids ex_data = (ex_file, Ok ()).
Proof. reflexivity. Defined.



(** ** Invalid calls of addClusters *)

Section addClusters_invalid.
Context `{Numpy}.

(** C3, as the code has it.  A call with an empty assignment or with
    a bundle that does not conform raises, but only after the previous
    container has been deleted and an empty one created: the file is
    left with a container without groups or attributes.  When some
    array has the wrong length the exception is the assertion error
    naming the first such field of the bundle; when all lengths agree
    and the assignment is empty it is the [ValueError] of [numpy.amin],
    raised before the loop over the ids. *)
Theorem addClusters_invalid (h : hdf5) (a : list Z) (b : pydict ndarray) :
  a = [] ∨ ¬ conforming a b →
  ∃ e, addClusters h a b = (Some empty_clusters_grp, Raise e) ∧
    ((¬ conforming a b ∧
      ∃ b1 f arr b2, items b = b1 ++ (f, arr) :: b2 ∧ conforming a b1 ∧
        size_of arr ≠ length a ∧ e = AssertionError ("Incorrect size for data " +:+ f)) ∨
     (conforming a b ∧ a = [] ∧ e = ValueError)).
Proof.
  intros Hbad. unfold addClusters.
  assert ((if hasClusters h then None else h) = None) as -> by (by destruct h).
  destruct (check_sizes b (length a)) as [[]|e] eqn:Hchk.
  - apply check_sizes_Ok in Hchk. destruct Hbad as [->|Hbad]; [|done].
    exists ValueError. split; [done|]. right. done.
  - exists e. split; [done|]. left. split.
    + intros Hb%check_sizes_Ok. congruence.
    + by apply check_sizes_Raise.
Qed.
End addClusters_invalid.

Lemma addClusters_invalid_witness :
  ¬ @conforming z_numpy ex_ids ex_bad_data ∧
  ∃ e, @addClusters z_numpy ex_file ex_ids ex_bad_data =
         (Some (@empty_clusters_grp z_numpy), Raise e).
Proof.
  assert (¬ @conforming z_numpy ex_ids ex_bad_data) as Hbad.
  { intros Hb. apply Forall_cons in Hb as [_ Hb]. apply Forall_cons in Hb as [Hb _].
    discriminate Hb. }
  split; [exact Hbad|].
  destruct (@addClusters_invalid z_numpy ex_file ex_ids ex_bad_data (or_intror Hbad))
    as (e & He & _).
  exists e. exact He.
Defined.

(** C3, as stated, fails: a call with an array of the wrong length, and
    a call with an empty assignment, both replace the container of the
    example file by an empty one before they raise. *)
Lemma addClusters_invalid_mutates :
  (@addClusters z_numpy ex_file ex_ids ex_bad_data).1 ≠ ex_file ∧
  raises (@addClusters z_numpy ex_file ex_ids ex_bad_data).2 ∧
  (@addClusters z_numpy ex_file [] ex_no_data).1 ≠ ex_file ∧
  raises (@addClusters z_numpy ex_file [] ex_no_data).2 ∧
  @hasClusters z_numpy (@addClusters z_numpy None ex_ids ex_bad_data).1 = true.
Proof.
  split_and!.
  - intros Heq. apply (f_equal (@getNClusters z_numpy)) in Heq. vm_compute in Heq. discriminate.
  - eexists. reflexivity.
  - intros Heq. apply (f_equal (@getNClusters z_numpy)) in Heq. vm_compute in Heq. discriminate.
  - eexists. reflexivity.
  - reflexivity.
Qed.

(** ** Reading the container *)

Section readers.
Context `{Numpy}.

Lemma getClusterGroup_Some (c : clusters_grp) (index : Z) :
  getClusterGroup (Some c) index = Ok (groups c !! getClusterName index).
Proof.
  unfold getClusterGroup. cbn [getClusters mbind result_bind].
  destruct (groups c !! getClusterName index) as [g|] eqn:Hg.
  - rewrite bool_decide_true by done. done.
  - rewrite bool_decide_false; [done|]. by intros [? ?].
Qed.

(** C6, as the code has it.  With a container in the file,
    [getClusterGroup] returns the group stored under [cl_<index>], and
    [None], without raising, when there is no such group; without a
    container it raises the [KeyError] of [self.hdf5["clusters"]]. *)
Theorem getClusterGroup_spec (h : hdf5) (index : Z) :
  getClusterGroup h index =
    match h with
    | Some c => Ok (groups c !! getClusterName index)
    | None => Raise (KeyError "clusters")
    end.
Proof. destruct h as [c|]; [apply getClusterGroup_Some | done]. Qed.

(** C9, as the code has it.  The description is an attribute of the
    container.  With a container in the file, [setClusteringInfo]
    stores the text and changes nothing else, and [getClusteringInfo]
    then returns it; without a container both raise the [KeyError] of
    [self.hdf5["clusters"]]. *)
Theorem clusteringInfo_spec (h : hdf5) (text : string) :
  match h with
  | Some c =>
      setClusteringInfo h text =
        (Some (ClustersGrp (groups c) (n_clusters c) (Some text)), Ok ()) ∧
      getClusteringInfo (setClusteringInfo h text).1 = Ok text
  | None =>
      setClusteringInfo h text = (None, Raise (KeyError "clusters")) ∧
      getClusteringInfo h = Raise (KeyError "clusters")
  end.
Proof. by destruct h. Qed.
End readers.

(** C6, as stated, fails: without a container the lookup of a group
    raises. *)
Lemma getClusterGroup_no_container :
  @getClusterGroup z_numpy None 0 = Raise (KeyError "clusters").
Proof. reflexivity. Qed.

(** C9, as stated, fails: without a container neither operation
    returns; and a description stored earlier does not survive a new
    partition. *)
Lemma clusteringInfo_no_container :
  @setClusteringInfo z_numpy None "dbscan" = (None, Raise (KeyError "clusters")) ∧
  @getClusteringInfo z_numpy None = Raise (KeyError "clusters") ∧
  @getClusteringInfo z_numpy
    (@addClusters z_numpy (@setClusteringInfo z_numpy ex_file "dbscan").1 ex_ids ex_data).1
    = Raise (KeyError "info").
Proof. split_and!; reflexivity. Qed.

(** ** getCluster and the dictionaries built by assignment *)

Lemma dict_set_fresh {V} (k : string) (v : V) (d : dict V) :
  k ∉ d.*1 → dict_set k v d = d ++ [(k, v)].
Proof.
  induction d as [|[k' v'] d IH]; [done|].
  rewrite fmap_cons, not_elem_of_cons. intros [Hk Hd]. simpl.
  rewrite decide_False by done. by rewrite IH.
Qed.

Lemma foldl_dict_set_fresh {V} (l d : dict V) :
  NoDup (d.*1 ++ l.*1) → foldl (λ d fa, dict_set fa.1 fa.2 d) d l = d ++ l.
Proof.
  revert d. induction l as [|[k v] l IH]; intros d Hnd.
  - by rewrite (right_id_L [] (++)).
  - cbn [foldl fst snd]. rewrite fmap_cons in Hnd. cbn [fst] in Hnd.
    apply NoDup_app in Hnd as (Hd & Hdl & Hl). apply NoDup_cons in Hl as [Hk Hl].
    rewrite dict_set_fresh.
    + rewrite IH, <- (assoc_L (++)); [done|].
      rewrite fmap_app. simpl. rewrite <- (assoc_L (++)). simpl.
      apply NoDup_app. split_and!; [done| |by apply NoDup_cons].
      intros x Hx. apply Hdl. done.
    + intros Hin. apply (Hdl _ Hin). left.
Qed.

Lemma dict_get_map_to_list {V} (m : gmap string V) (f : string) :
  dict_get f (map_to_list m) = m !! f.
Proof.
  destruct (m !! f) as [v|] eqn:Hf.
  - apply dict_get_elem; [apply NoDup_fst_map_to_list | by apply elem_of_map_to_list].
  - apply dict_get_None. intros ([f' v] & -> & Hin)%list_elem_of_fmap.
    apply elem_of_map_to_list in Hin. simpl in Hf. congruence.
Qed.

(** [for field in d: cl[field] = d[field]] *)
Lemma dict_get_merge {V} (f : string) (cl d : dict V) :
  NoDup d.*1 →
  dict_get f (foldl (λ cl fa, dict_set fa.1 fa.2 cl) cl d) =
    match dict_get f d with Some v => Some v | None => dict_get f cl end.
Proof.
  revert cl. induction d as [|[k v] d IH]; intros cl Hnd; [done|].
  rewrite fmap_cons in Hnd. apply NoDup_cons in Hnd as [Hk Hnd].
  cbn [foldl fst snd dict_get]. rewrite IH, dict_get_set by done.
  case_decide; subst; [|done].
  assert (dict_get f d = None) as -> by (by apply dict_get_None). done.
Qed.

Section getCluster.
Context `{Numpy}.

Lemma getCluster_Some (g : cl_grp) : getCluster (Some g) = Ok (map_to_list (datasets g)).
Proof.
  unfold getCluster. f_equal.
  rewrite foldl_dict_set_fresh; [done|]. apply NoDup_fst_map_to_list.
Qed.

Lemma map_to_list_is_empty (g : cl_grp) :
  dict_is_empty (map_to_list (datasets g)) = true ↔ datasets g = ∅.
Proof.
  rewrite <- map_to_list_empty_iff. destruct (map_to_list (datasets g)); simpl; split; done.
Qed.
End getCluster.

(** ** getClusterData: the join with the record store *)

Lemma dict_all_None {V} (d : dict V) : (∀ f, dict_get f d = None) → d = [].
Proof.
  destruct d as [|[k v] d]; [done|]. intros Hd. specialize (Hd k). simpl in Hd.
  by rewrite decide_True in Hd.
Qed.

Section join.
Context `{Numpy}.

Lemma record_at_None (locs : dict ndarray) (k : value) (r : dict (dtype * value)) (f : string) :
  record_at locs k = Ok r → dict_get f locs = None → dict_get f r = None.
Proof.
  revert r. induction locs as [|[f' arr] locs IH]; intros r; simpl.
  - by intros [= <-].
  - destruct (np_getitem arr k) as [v|]; [|done]. simpl.
    destruct (record_at locs k) as [r'|]; [|done]. simpl. intros [= <-]. simpl.
    case_decide; [done|]. by apply IH.
Qed.

Lemma record_at_Some (locs : dict ndarray) (k : value) (r : dict (dtype * value))
    (f : string) (arr : ndarray) :
  record_at locs k = Ok r → dict_get f locs = Some arr →
  ∃ v, np_getitem arr k = Ok v ∧ dict_get f r = Some (dtype_of arr, v).
Proof.
  revert r. induction locs as [|[f' arr'] locs IH]; intros r; simpl; [done|].
  destruct (np_getitem arr' k) as [v|] eqn:Hv; [|done]. simpl.
  destruct (record_at locs k) as [r'|]; [|done]. simpl. intros [= <-]. simpl.
  case_decide.
  - intros [= <-]. by exists v.
  - by apply IH.
Qed.

Lemma dict_get_alloc_fields (n : nat) (locs : dict ndarray) (f : string) :
  NoDup locs.*1 →
  dict_get f (alloc_fields n locs []) = (λ arr, zeros n (dtype_of arr)) <$> dict_get f locs.
Proof.
  intros Hnd.
  assert (alloc_fields n locs [] =
          foldl (λ cl fa, dict_set fa.1 fa.2 cl) []
            ((λ fa : string * ndarray, (fa.1, zeros n (dtype_of fa.2))) <$> locs)) as ->
    by (unfold alloc_fields; by rewrite foldl_fmap).
  rewrite dict_get_merge, (dict_get_fmap (λ arr : ndarray, zeros n (dtype_of arr))).
  - by destruct (dict_get f locs).
  - by rewrite <- list_fmap_compose.
Qed.

Variable cl_dict : dict ndarray.
Variable loc_id : ndarray.
Hypothesis Hloc : dict_get "loc_id" cl_dict = Some loc_id.

Lemma copy_field_Ok (s : nat) (k v : value) (f : string) (arr out : ndarray)
    (cl : dict ndarray) :
  np_item loc_id (Z.of_nat s) = Ok k → np_getitem arr k = Ok v →
  dict_get f cl = Some out → s < size_of out →
  copy_field cl_dict s (f, arr) cl =
    Ok (dict_set f (NdArray (dtype_of out) (<[s := cast (dtype_of out) v]> (data out))) cl).
Proof.
  intros Hk Hv Hout Hs. unfold copy_field, dict_getitem, np_setitem. cbn [fst snd].
  rewrite Hloc. cbn [mbind result_bind]. rewrite Hk. cbn [mbind result_bind].
  rewrite Hv. cbn [mbind result_bind]. rewrite Hout. cbn [mbind result_bind].
  by rewrite decide_True.
Qed.

(** The loop over the fields of one data set writes row [s]. *)
Lemma fold_copy_field (s : nat) (k : value) (rest : dict ndarray) (cl : dict ndarray) :
  np_item loc_id (Z.of_nat s) = Ok k →
  NoDup rest.*1 →
  (∀ f arr, (f, arr) ∈ rest →
     ∃ v out, np_getitem arr k = Ok v ∧ dict_get f cl = Some out ∧ s < size_of out) →
  ∃ cl', fold_result rest (copy_field cl_dict s) cl = Ok cl' ∧
    ∀ f, match dict_get f rest with
         | None => dict_get f cl' = dict_get f cl
         | Some arr =>
             ∃ v out, np_getitem arr k = Ok v ∧ dict_get f cl = Some out ∧
               dict_get f cl' =
                 Some (NdArray (dtype_of out) (<[s := cast (dtype_of out) v]> (data out)))
         end.
Proof.
  intros Hk. revert cl. induction rest as [|[f0 arr0] rest IH]; intros cl Hnd Hrest.
  - exists cl. split; [done|]. done.
  - rewrite fmap_cons in Hnd. apply NoDup_cons in Hnd as [Hf0 Hnd]. cbn [fst] in Hf0.
    destruct (Hrest f0 arr0) as (v0 & out0 & Hv0 & Hout0 & Hs); [left|].
    cbn [fold_result]. rewrite (copy_field_Ok s k v0 f0 arr0 out0) by done.
    cbn [mbind result_bind].
    set (out0' := NdArray (dtype_of out0) (<[s:=cast (dtype_of out0) v0]> (data out0))).
    destruct (IH (dict_set f0 out0' cl) Hnd) as (cl' & Hcl' & Hget).
    { intros f arr Hin. destruct (Hrest f arr) as (v & out & ? & ? & ?); [by right|].
      exists v, out. split_and!; try done. rewrite dict_get_set, decide_False; [done|].
      intros ->. apply Hf0. apply list_elem_of_fmap. by exists (f, arr). }
    exists cl'. split; [done|]. intros f. specialize (Hget f). cbn [dict_get].
    case_decide as Hf; subst.
    + assert (dict_get f rest = None) as Hnone by (by apply dict_get_None).
      rewrite Hnone in Hget. rewrite Hget, dict_get_set, decide_True by done.
      by exists v0, out0.
    + rewrite dict_get_set, decide_False in Hget by done. done.
Qed.

Variable fetch : Z → result (pydict ndarray).
Variable key : string.
Variable ids : ndarray.
Variable R : nat → dict (dtype * value).
Hypothesis Hkey : dict_get key cl_dict = Some ids.
Hypothesis HR : ∀ i, i < size_of ids → single_record fetch ids loc_id i = Ok (R i).
Hypothesis Huniform :
  ∀ i f, i < size_of ids → is_Some (dict_get f (R i)) ↔ is_Some (dict_get f (R 0)).

(** One member: the arrays are allocated if there are none yet, and
    row [s] is written. *)
Lemma join_member_step (s : nat) (cl : dict ndarray) :
  s < size_of ids → filled R (size_of ids) s cl →
  ∃ cl', join_member fetch cl_dict key (size_of ids) s cl = Ok cl' ∧
         filled R (size_of ids) (S s) cl'.
Proof.
  intros Hs Hfill. set (n := size_of ids) in *.
  pose proof (HR s Hs) as Hrec. unfold single_record in Hrec.
  destruct (np_item ids (Z.of_nat s)) as [id|] eqn:Hid; [|done]. cbn in Hrec.
  destruct (fetch (to_int id)) as [locs|] eqn:Hfetch; [|done]. cbn in Hrec.
  destruct (np_item loc_id (Z.of_nat s)) as [k|] eqn:Hk; [|done]. cbn in Hrec.
  pose proof (pydict_NoDup locs) as Hnd.
  unfold join_member, dict_getitem. rewrite Hkey. cbn [mbind result_bind].
  rewrite Hid. cbn [mbind result_bind]. rewrite Hfetch. cbn [mbind result_bind].
  set (cl0 := if dict_is_empty cl then alloc_fields n (items locs) cl else cl).
  assert (∀ f, match dict_get f (R 0) with
               | None => dict_get f cl0 = None
               | Some (dt, _) =>
                   ∃ out, dict_get f cl0 = Some out ∧ dtype_of out = dt ∧ size_of out = n ∧
                     ∀ i, i < s → data out !! i = (λ r, cast dt r.2) <$> dict_get f (R i)
               end) as Halloc.
  { destruct (decide (s = 0)) as [->|Hs0].
    - assert (cl = []) as ->.
      { apply dict_all_None. intros f. specialize (Hfill f). by rewrite decide_True in Hfill. }
      subst cl0. cbn [dict_is_empty]. intros f. rewrite dict_get_alloc_fields by done.
      destruct (dict_get f (items locs)) as [arr|] eqn:Hf.
      + destruct (record_at_Some _ _ _ _ _ Hrec Hf) as (v & _ & ->).
        eexists. split_and!; [done|done|apply length_replicate|]. intros i Hi. lia.
      + by rewrite (record_at_None _ _ _ _ Hrec Hf).
    - assert (cl0 = cl) as ->.
      { subst cl0. destruct cl as [|fa cl]; [|done]. cbn [dict_is_empty].
        assert (items locs = []) as ->; [|done].
        apply dict_all_None. intros f.
        destruct (dict_get f (items locs)) as [arr|] eqn:Hf; [|done].
        destruct (record_at_Some _ _ _ _ _ Hrec Hf) as (v & _ & Hr).
        assert (is_Some (dict_get f (R 0))) as [[dt v0] H0] by (apply (Huniform s); eauto).
        specialize (Hfill f). rewrite decide_False, H0 in Hfill by done.
        by destruct Hfill as (out & ? & _). }
      intros f. specialize (Hfill f). by rewrite decide_False in Hfill. }
  destruct (fold_copy_field s k (items locs) cl0 Hk Hnd) as (cl' & Hcl' & Hget).
  { intros f arr Hin. apply dict_get_elem in Hin; [|done].
    destruct (record_at_Some _ _ _ _ _ Hrec Hin) as (v & Hv & Hr).
    assert (is_Some (dict_get f (R 0))) as [[dt v0] H0] by (apply (Huniform s); eauto).
    specialize (Halloc f). rewrite H0 in Halloc.
    destruct Halloc as (out & Hout & _ & Hsize & _).
    exists v, out. split_and!; try done. lia. }
  exists cl'. split; [done|]. intros f. rewrite decide_False by lia.
  specialize (Hget f). specialize (Halloc f).
  destruct (dict_get f (R 0)) as [[dt v0]|] eqn:H0.
  - assert (is_Some (dict_get f (R s))) as [[dts vs] Hrs] by (apply (Huniform s); eauto).
    destruct (dict_get f (items locs)) as [arr|] eqn:Hf.
    + destruct Hget as (v & out & Hv & Hout & Hout').
      destruct Halloc as (out' & Hout2 & Hdt & Hsize & Hrows).
      rewrite Hout in Hout2. injection Hout2 as <-.
      destruct (record_at_Some _ _ _ _ _ Hrec Hf) as (v' & Hv' & Hr).
      rewrite Hv in Hv'. injection Hv' as <-.
      eexists. split; [exact Hout'|]. cbn [dtype_of data size_of].
      split; [done|]. split; [unfold size_of; cbn [data]; by rewrite length_insert|].
      intros i Hi.
      destruct (decide (i = s)) as [->|Hne].
      * rewrite list_lookup_insert_eq by (unfold size_of in Hsize; lia).
        rewrite Hr. cbn. by rewrite Hdt.
      * rewrite list_lookup_insert_ne by done. apply Hrows. lia.
    + rewrite (record_at_None _ _ _ _ Hrec Hf) in Hrs. done.
  - destruct (dict_get f (items locs)) as [arr|] eqn:Hf.
    + destruct (record_at_Some _ _ _ _ _ Hrec Hf) as (v' & Hv' & Hr).
      assert (is_Some (dict_get f (R 0))) as [? ?] by (apply (Huniform s); eauto).
      congruence.
    + congruence.
Qed.

(** The loop over the members. *)
Lemma fold_join_member (m s : nat) (cl : dict ndarray) :
  s + m = size_of ids → filled R (size_of ids) s cl →
  ∃ cl', fold_result (seq s m) (join_member fetch cl_dict key (size_of ids)) cl = Ok cl' ∧
         filled R (size_of ids) (size_of ids) cl'.
Proof.
  revert s cl. induction m as [|m IH]; intros s cl Hsm Hfill.
  - exists cl. split; [done|]. by replace (size_of ids) with s at 2 by lia.
  - destruct (join_member_step s cl) as (cl1 & Hcl1 & Hfill1); [lia|done|].
    destruct (IH (S s) cl1) as (cl' & Hcl' & Hfill'); [lia|done|].
    exists cl'. split; [|done]. cbn [seq fold_result]. rewrite Hcl1. done.
Qed.

Lemma filled_nil : filled R (size_of ids) 0 [].
Proof. intros f. by rewrite decide_True. Qed.
End join.

Section getClusterData.
Context `{RecordStore}.

(** With the key field of its mode in the group, [getClusterData] is
    the loop over the members followed by the merge of the
    cross-reference fields. *)
Lemma getClusterData_mode (c : clusters_grp) (index : Z) (fields : option (list string))
    (g : cl_grp) (ids : ndarray) :
  groups c !! getClusterName index = Some g →
  datasets g !! key_field g = Some ids →
  getClusterData (Some c) index fields =
    cl ← fold_result (seq 0 (size_of ids))
           (join_member (fetch_records g fields) (map_to_list (datasets g)) (key_field g)
              (size_of ids)) [];
    Ok (foldl (λ cl fa, dict_set fa.1 fa.2 cl) cl (map_to_list (datasets g))).
Proof.
  intros Hg Hids. unfold getClusterData.
  rewrite getClusterGroup_Some, Hg. cbn [mbind result_bind].
  rewrite getCluster_Some. cbn [mbind result_bind].
  destruct (dict_is_empty (map_to_list (datasets g))) eqn:Hempty.
  { apply map_to_list_is_empty in Hempty. rewrite Hempty, lookup_empty in Hids. done. }
  unfold dict_mem, dict_getitem. rewrite !dict_get_map_to_list.
  unfold key_field, fetch_records in *. fold (localization_mode g).
  destruct (localization_mode g); rewrite Hids; done.
Qed.

(** C2. For a group with [n] members, [getClusterData] is in
    localization mode exactly when the group has a "frame" field, and
    in track mode otherwise.  When the single-record lookups of the
    members [(key[i], loc_id[i])] succeed and name the same fields,
    the call returns a mapping [cl] made of the output arrays [joined]
    and of the cross-reference fields of the group, which take
    precedence: [joined] has one array of length [n] per field of the
    first record, with the element type of that record, and its
    position [i] holds the value of member [i] converted to that
    type. *)
Theorem getClusterData_join (c : clusters_grp) (index : Z) (fields : option (list string))
    (g : cl_grp) (ids loc_id : ndarray) (R : nat → dict (dtype * value)) :
  groups c !! getClusterName index = Some g →
  datasets g !! key_field g = Some ids →
  datasets g !! "loc_id" = Some loc_id →
  (∀ i, i < size_of ids → single_record (fetch_records g fields) ids loc_id i = Ok (R i)) →
  (∀ i f, i < size_of ids → is_Some (dict_get f (R i)) ↔ is_Some (dict_get f (R 0))) →
  ∃ cl joined,
    getClusterData (Some c) index fields = Ok cl ∧
    filled R (size_of ids) (size_of ids) joined ∧
    ∀ f, dict_get f cl =
           match datasets g !! f with Some arr => Some arr | None => dict_get f joined end.
Proof.
  intros Hg Hids Hloc HR Huni.
  rewrite (getClusterData_mode c index fields g ids) by done.
  destruct (fold_join_member (map_to_list (datasets g)) loc_id
              (eq_trans (dict_get_map_to_list _ _) Hloc)
              (fetch_records g fields) (key_field g) ids R
              (eq_trans (dict_get_map_to_list _ _) Hids) HR Huni
              (size_of ids) 0 []) as (joined & Hloop & Hfilled);
    [done | apply filled_nil |].
  rewrite Hloop. cbn [mbind result_bind].
  eexists _, joined. split; [done|]. split; [done|].
  intros f. rewrite dict_get_merge by apply NoDup_fst_map_to_list.
  by rewrite dict_get_map_to_list.
Qed.

(** C7, as the code has it.  For a group that exists, the call returns
    without raising a mapping that holds no reconstructed data when
    the group has no member: the empty mapping when the group stores
    no field at all, and the (empty) cross-reference fields of the
    group when the key field of its mode has length zero. *)
Theorem getClusterData_no_members (c : clusters_grp) (index : Z)
    (fields : option (list string)) (g : cl_grp) :
  groups c !! getClusterName index = Some g →
  (datasets g = ∅ → getClusterData (Some c) index fields = Ok []) ∧
  (∀ ids, datasets g !! key_field g = Some ids → size_of ids = 0 →
     ∃ cl, getClusterData (Some c) index fields = Ok cl ∧
           ∀ f, dict_get f cl = datasets g !! f).
Proof.
  intros Hg. split.
  - intros Hempty. unfold getClusterData.
    rewrite getClusterGroup_Some, Hg. cbn [mbind result_bind].
    rewrite getCluster_Some. cbn [mbind result_bind].
    by rewrite Hempty, map_to_list_empty.
  - intros ids Hids Hsize.
    rewrite (getClusterData_mode c index fields g ids), Hsize by done.
    cbn [seq fold_result mbind result_bind]. eexists. split; [done|].
    intros f. rewrite dict_get_merge by apply NoDup_fst_map_to_list.
    rewrite dict_get_map_to_list. by destruct (datasets g !! f).
Qed.
End getClusterData.

Lemma getClusterData_join_witness :
  groups ex_container !! getClusterName 1 = Some ex_cluster ∧
  ∃ cl, @getClusterData z_numpy z_store (Some ex_container) 1 None = Ok cl ∧
        dict_get "frame" cl = Some (zarr DInt [0; 1]%Z) ∧
        ∃ joined, @filled z_numpy ex_records 2 2 joined ∧
                  dict_get "x" cl = dict_get "x" joined.
Proof.
  assert (groups ex_container !! getClusterName 1 = Some ex_cluster) as Hg by reflexivity.
  split; [exact Hg|].
  destruct (@getClusterData_join z_numpy z_store ex_container 1 None ex_cluster
              (zarr DInt [0; 1]%Z) (zarr DInt [0; 0]%Z) ex_records Hg)
    as (cl & joined & Hcl & Hfilled & Hget).
  - reflexivity.
  - reflexivity.
  - intros [|[|i]] Hi; [reflexivity | reflexivity | cbn in Hi; lia].
  - intros [|[|i]] f Hi; [done | | cbn in Hi; lia].
    set (r1 := ex_records 1). set (r0 := ex_records 0).
    vm_compute in r1, r0. subst r1 r0. cbn [dict_get].
    repeat case_decide; split; intros ?; try done; eauto.
  - exists cl. split; [exact Hcl|]. split; [exact (Hget "frame")|].
    exists joined. split; [exact Hfilled | exact (Hget "x")].
Defined.

Lemma getClusterData_no_members_witness :
  groups ex_bare_container !! getClusterName 0 = Some (@ClGrp z_numpy ∅ (Some 1%Z)) ∧
  @getClusterData z_numpy z_store (Some ex_bare_container) 0 None = Ok [].
Proof.
  assert (groups ex_bare_container !! getClusterName 0 = Some (@ClGrp z_numpy ∅ (Some 1%Z)))
    as Hg by reflexivity.
  split; [exact Hg|].
  exact (proj1 (@getClusterData_no_members z_numpy z_store ex_bare_container 0 None _ Hg)
           eq_refl).
Defined.

(** C7, as stated, fails: for an index without a group the call raises,
    with or without a container; and a group without members that has
    its cross-reference fields comes back as a non-empty mapping. *)
Lemma getClusterData_not_empty_mapping :
  @getClusterData z_numpy z_store ex_file 7 None = Raise TypeError ∧
  @getClusterData z_numpy z_store None 0 None = Raise (KeyError "clusters") ∧
  @getClusterData z_numpy z_store ex_hollow_file 0 None =
    Ok [("frame", zarr DInt []); ("loc_id", zarr DInt [])].
Proof. split_and!; reflexivity. Qed.

(** ** clustersIterator *)

Section clustersIterator.
Context `{RecordStore}.

Lemma iterate_clusters_spec (c : clusters_grp) (fields : option (list string))
    (min_size : Z) (indices : list Z) :
  (∀ i, i ∈ indices → is_Some (stored_size c i)) →
  iterate_clusters (Some c) fields min_size indices =
    yield_all ((λ i, (i, getClusterData (Some c) i fields))
                 <$> filter (λ i, exceeds c min_size i) indices).
Proof.
  induction indices as [|i indices IH]; intros Hsizes; [done|].
  cbn [iterate_clusters]. rewrite getClusterGroup_Some, filter_cons.
  rewrite IH by (intros; apply Hsizes; by right).
  destruct (Hsizes i) as [s Hs]; [left|].
  assert (exceeds c min_size i = bool_decide (s > min_size)%Z) as Hex
    by (unfold exceeds; by rewrite Hs).
  unfold stored_size in Hs.
  destruct (groups c !! getClusterName i) as [g|]; [|done]. cbn in Hs. rewrite Hs.
  destruct (decide (exceeds c min_size i)) as [He|He]; rewrite Hex in He.
  - rewrite bool_decide_true by (by apply bool_decide_unpack in He).
    rewrite fmap_cons. cbn [yield_all].
    by destruct (getClusterData (Some c) i fields).
  - rewrite bool_decide_false; [done|]. intros Hgt. apply He. by apply bool_decide_pack.
Qed.

(** C5. Without a container the iterator yields nothing and does not
    raise.  With a container that stores the count [n] and the sizes
    of the groups from the start index to [n], it yields, in ascending
    order of [i], the pairs [(i, getClusterData(i, fields))] for the
    indices [i] from the start index (1 when the unclustered group is
    skipped, else 0) to [n] inclusive whose stored size is strictly
    greater than [min_size]; an exception of [getClusterData] ends the
    iteration. *)
Theorem clustersIterator_spec (h : hdf5) (fields : option (list string)) (min_size : Z)
    (skip_unclustered : bool) :
  match h with
  | None => clustersIterator h fields min_size skip_unclustered = ([], None)
  | Some c =>
      let start := if skip_unclustered then 1%Z else 0%Z in
      ∀ n, n_clusters c = Some n →
        (∀ i, (start ≤ i ≤ n)%Z → is_Some (stored_size c i)) →
        clustersIterator h fields min_size skip_unclustered =
          yield_all ((λ i, (i, getClusterData h i fields))
                       <$> filter (λ i, exceeds c min_size i) (range start (n + 1)))
  end.
Proof.
  destruct h as [c|]; [|done]. intros start n Hn Hsizes.
  unfold clustersIterator, getNClusters. cbn. rewrite Hn.
  assert ((if negb skip_unclustered then 0%Z else 1%Z) = start) as ->
    by (by destruct skip_unclustered).
  apply iterate_clusters_spec. intros i Hi. apply Hsizes.
  unfold range in Hi. apply elem_of_seqZ in Hi. lia.
Qed.

(** The container left by [addClusters] qualifies. *)
Lemma addClusters_stored_sizes (h h' : hdf5) (a : list Z) (b : pydict ndarray) :
  addClusters h a b = (h', Ok ()) →
  ∃ c n, h' = Some c ∧ n_clusters c = Some n ∧
    ∀ i, (0 ≤ i ≤ n)%Z → stored_size c i = Some (Z.of_nat (members a (stored_ids a !!! Z.to_nat i))).
Proof.
  intros Hadd. destruct (addClusters_Ok_inv _ _ _ _ Hadd) as [Ha Hb].
  rewrite addClusters_stored in Hadd by done. injection Hadd as <-.
  eexists _, _. split_and!; [done..|]. cbn. intros i Hi.
  unfold stored_size. cbn. rewrite placed_lookup, decide_True, Z.sub_0_r by lia.
  destruct (lookup_lt_is_Some_2 (stored_ids a) (Z.to_nat i)) as [j Hj]; [lia|].
  rewrite Hj. cbn. by rewrite (list_lookup_total_correct _ _ _ Hj).
Qed.
End clustersIterator.

(** The container left by a call of [addClusters] that raised has no
    count: the iterator raises on it. *)
Lemma clustersIterator_after_failure :
  @clustersIterator z_numpy z_store (@addClusters z_numpy None ex_ids ex_bad_data).1 None 0 true
    = ([], Some (KeyError "n_clusters")).
Proof. reflexivity. Qed.

Lemma clustersIterator_spec_witness :
  n_clusters ex_container = Some 2%Z ∧
  (∀ i, (1 ≤ i ≤ 2)%Z → is_Some (stored_size ex_container i)) ∧
  @clustersIterator z_numpy z_store (Some ex_container) None 1 true =
    yield_all [(1%Z, @getClusterData z_numpy z_store (Some ex_container) 1 None)].
Proof.
  assert (∀ i, (1 ≤ i ≤ 2)%Z → is_Some (stored_size ex_container i)) as Hsizes.
  { intros i Hi. assert (i = 1 ∨ i = 2)%Z as [-> | ->] by lia; by eexists. }
  split; [reflexivity|]. split; [exact Hsizes|].
  exact (@clustersIterator_spec z_numpy z_store (Some ex_container) None 1 true
           2%Z eq_refl Hsizes).
Defined.

(** ** getDataForClustering *)

Section slices.
Context `{Numpy}.

Lemma slice_assign_fits (arr : ndarray) (start m : nat) (vals : list value) :
  length vals = m → (start + m ≤ size_of arr)%nat →
  slice_assign arr start (start + m) vals =
    Ok (NdArray (dtype_of arr)
          (take start (data arr) ++ (cast (dtype_of arr) <$> vals)
           ++ drop (start + m) (data arr))).
Proof.
  intros <- Hfit. unfold slice_assign.
  rewrite (Nat.min_l start) by lia. rewrite (Nat.min_l (start + _)) by lia.
  rewrite Nat.max_r by lia. rewrite decide_True by lia. done.
Qed.

Lemma size_of_slice_fill (arr : ndarray) (start stop : nat) (v : value) :
  size_of (slice_fill arr start stop v) = size_of arr.
Proof.
  unfold slice_fill, size_of; cbn [data].
  rewrite !length_app, length_take, length_replicate, length_drop. lia.
Qed.

Lemma length_block {A} (xs vs : list A) (start : nat) :
  (start + length vs ≤ length xs)%nat →
  length (take start xs ++ vs ++ drop (start + length vs) xs) = length xs.
Proof. intros. rewrite !length_app, length_take, length_drop. lia. Qed.

(** Writing a block right after the part already written. *)
Lemma write_block {A} (pre vs : list A) (z : A) (start m r : nat) :
  length pre = start → length vs = m →
  take start (pre ++ replicate r z) ++ vs ++ drop (start + m) (pre ++ replicate r z)
  = (pre ++ vs) ++ replicate (r - m) z.
Proof.
  intros <- <-. rewrite take_app_length, drop_app_add, drop_replicate.
  by rewrite (assoc_L (++)).
Qed.

Lemma length_arange (n : nat) : length (arange n) = n.
Proof. unfold arange. by rewrite length_fmap, length_seq. Qed.

Lemma length_scale (arr : ndarray) (s : value) : length (scale arr s) = size_of arr.
Proof. unfold scale. by rewrite length_fmap. Qed.

Lemma records_of_snoc (ds : list (pydict ndarray)) (d : pydict ndarray) :
  records_of (ds ++ [d]) = records_of ds + length (column "x" (items d)).
Proof.
  unfold records_of. rewrite bind_app, length_app. simpl.
  by rewrite (right_id_L [] (++)).
Qed.

Lemma converted_snoc (f : string) (factor : value) (ds : list (pydict ndarray))
    (d : pydict ndarray) :
  converted f factor (ds ++ [d]) =
    converted f factor ds ++ ((λ v, cast float64 (mul v factor)) <$> column f (items d)).
Proof. unfold converted. rewrite bind_app. simpl. by rewrite (right_id_L [] (++)). Qed.

Lemma length_converted (f : string) (factor : value) (ds : list (pydict ndarray)) :
  Forall (λ d, length (column f (items d)) = length (column "x" (items d))) ds →
  length (converted f factor ds) = records_of ds.
Proof.
  unfold converted, records_of. induction 1 as [|d ds Hd _ IH]; [done|].
  cbn [mbind list_bind]. by rewrite !length_app, length_fmap, IH, Hd.
Qed.

Lemma column_Some (f : string) (d : dict ndarray) (arr : ndarray) :
  dict_get f d = Some arr → column f d = data arr.
Proof. unfold column. by intros ->. Qed.

Lemma aligned_lengths (need_z : bool) (ds : list (pydict ndarray)) (f : string) :
  Forall (λ d, aligned need_z (items d)) ds →
  f = "x" ∨ f = "y" ∨ (f = "z" ∧ need_z = true) →
  Forall (λ d, length (column f (items d)) = length (column "x" (items d))) ds.
Proof.
  intros Hds Hf. eapply Forall_impl; [exact Hds|]. cbn.
  intros d (x & y & c & Hx & Hy & Hc & Hyx & Hcx & Hz).
  destruct Hf as [->|[->|[-> Hneed]]].
  - done.
  - by rewrite (column_Some _ _ _ Hx), (column_Some _ _ _ Hy).
  - destruct (Hz Hneed) as (z & Hz' & Hzx).
    by rewrite (column_Some _ _ _ Hx), (column_Some _ _ _ Hz').
Qed.

(** The part of the two loop bodies that fills an output array. *)
Lemma fill_column (pre : list value) (arr : ndarray) (factor : value)
    (start m total : nat) :
  length pre = start → size_of arr = m → (start + m ≤ total)%nat →
  slice_assign (NdArray float64 (pre ++ replicate (total - start) (zero float64)))
      start (start + m) (scale arr factor) =
    Ok (NdArray float64
          ((pre ++ ((λ v, cast float64 (mul v factor)) <$> data arr))
           ++ replicate (total - (start + m)) (zero float64))).
Proof.
  intros Hpre Hm Hfit. rewrite slice_assign_fits.
  - cbn [dtype_of data]. do 2 f_equal.
    rewrite (write_block pre _ _ start m);
      [|done|by rewrite length_fmap, length_scale].
    unfold scale. rewrite <- list_fmap_compose. by rewrite Nat.sub_add_distr.
  - by rewrite length_scale.
  - unfold size_of. cbn [data]. rewrite length_app, length_replicate. lia.
Qed.

Lemma size_of_block (arr : ndarray) (dt : dtype) (start m : nat) (vals : list value) :
  length vals = m → (start + m ≤ size_of arr)%nat →
  size_of (NdArray dt (take start (data arr) ++ (cast dt <$> vals)
                       ++ drop (start + m) (data arr))) = size_of arr.
Proof.
  intros <- Hfit. unfold size_of in *. cbn [data].
  rewrite !length_app, length_take, length_fmap, length_drop. lia.
Qed.

Lemma replicate_split {A} (z : A) (k total : nat) :
  (k ≤ total)%nat → replicate k z ++ replicate (total - k) z = replicate total z.
Proof. intros Hk. rewrite <- replicate_add. f_equal. lia. Qed.

Variable total : nat.
Variable pix : value.
Variable ignore_z : bool.

Lemma dict_getitem_Some {V} (k : string) (d : dict V) (v : V) :
  dict_get k d = Some v → dict_getitem k d = Ok v.
Proof. unfold dict_getitem. by intros ->. Qed.

(** The part of the two loop bodies that fills [z]. *)
Lemma load_z_step (done : list (pydict ndarray)) (d : pydict ndarray) (x : ndarray) :
  Forall (λ d, aligned (negb ignore_z) (items d)) done →
  dict_get "x" (items d) = Some x →
  (negb ignore_z = true → ∃ z, dict_get "z" (items d) = Some z ∧ size_of z = size_of x) →
  (records_of done + size_of x ≤ total)%nat →
  (if negb ignore_z
   then tz ← dict_getitem "z" (items d);
        slice_assign
          (NdArray float64
             ((if ignore_z then replicate (records_of done) (zero float64)
               else converted "z" f1000 done)
              ++ replicate (total - records_of done) (zero float64)))
          (records_of done) (records_of done + size_of x) (scale tz f1000)
   else Ok (NdArray float64
              ((if ignore_z then replicate (records_of done) (zero float64)
                else converted "z" f1000 done)
               ++ replicate (total - records_of done) (zero float64))))
  = Ok (NdArray float64
          ((if ignore_z then replicate (records_of (done ++ [d])) (zero float64)
            else converted "z" f1000 (done ++ [d]))
           ++ replicate (total - records_of (done ++ [d])) (zero float64))).
Proof.
  intros Hdone Hx Hz Htot.
  rewrite records_of_snoc, (column_Some _ _ _ Hx). fold (size_of x).
  destruct ignore_z; cbn [negb] in *.
  - by rewrite !replicate_split by lia.
  - destruct (Hz eq_refl) as (z & Hz' & Hzx). unfold dict_getitem. rewrite Hz'.
    cbn [mbind result_bind].
    rewrite (fill_column (converted "z" f1000 done) z f1000 (records_of done) (size_of x))
      by (rewrite ?length_converted; try done; eapply aligned_lengths; eauto).
    by rewrite converted_snoc, (column_Some _ _ _ Hz').
Qed.

Lemma loaded_next (done : list (pydict ndarray)) (d : pydict ndarray) (x y : ndarray)
    (key loc_id c : ndarray) :
  dict_get "x" (items d) = Some x → dict_get "y" (items d) = Some y →
  size_of key = total → size_of loc_id = total → size_of c = total →
  loaded total pix ignore_z (done ++ [d])
    (Columns (records_of done + size_of x) key loc_id
       (NdArray float64
          ((converted "x" pix done ++ ((λ v, cast float64 (mul v pix)) <$> data x))
           ++ replicate (total - (records_of done + size_of x)) (zero float64)))
       (NdArray float64
          ((converted "y" pix done ++ ((λ v, cast float64 (mul v pix)) <$> data y))
           ++ replicate (total - (records_of done + size_of x)) (zero float64)))
       (NdArray float64
          ((if ignore_z then replicate (records_of (done ++ [d])) (zero float64)
            else converted "z" f1000 (done ++ [d]))
           ++ replicate (total - records_of (done ++ [d])) (zero float64)))
       c).
Proof.
  intros Hx Hy Hk Hl Hc. unfold loaded. cbn [col_start col_x col_y col_z col_c col_key col_loc_id].
  rewrite !converted_snoc, records_of_snoc, (column_Some _ _ _ Hx), (column_Some _ _ _ Hy).
  by split_and!.
Qed.

Lemma load_tracks_step (done : list (pydict ndarray)) (i : nat) (d : pydict ndarray)
    (s : columns) :
  Forall (λ d, aligned (negb ignore_z) (items d)) done →
  aligned (negb ignore_z) (items d) →
  (records_of (done ++ [d]) ≤ total)%nat →
  loaded total pix ignore_z done s →
  ∃ s', load_tracks pix ignore_z (i, d) s = Ok s' ∧
        loaded total pix ignore_z (done ++ [d]) s'.
Proof.
  intros Hdone (x & y & c & Hx & Hy & Hc & Hyx & Hcx & Hz) Htot Hload.
  rewrite records_of_snoc, (column_Some _ _ _ Hx) in Htot. fold (size_of x) in Htot.
  unfold load_tracks.
  destruct Hload as (Hstart & Hsx & Hsy & Hsz & Hsc & Hsl & Hsk).
  rewrite (dict_getitem_Some _ _ _ Hx), (dict_getitem_Some _ _ _ Hy),
    (dict_getitem_Some _ _ _ Hc); cbn [mbind result_bind].
  rewrite !Hstart, Hsx, Hsy, Hsz.
  rewrite (slice_assign_fits (col_loc_id _)) by (rewrite ?length_arange, ?Hsl; lia || done).
  cbn [mbind result_bind].
  rewrite (fill_column _ x _ _ _ _)
    by (rewrite ?length_converted; try done; eapply aligned_lengths; eauto).
  cbn [mbind result_bind].
  rewrite (fill_column _ y _ _ _ _)
    by (rewrite ?length_converted; try done; eapply aligned_lengths; eauto).
  cbn [mbind result_bind].
  rewrite (load_z_step done d x) by done. cbn [mbind result_bind].
  rewrite (slice_assign_fits (col_c _)) by (rewrite ?Hsc; lia || done).
  cbn [mbind result_bind].
  eexists. split; [done|]. apply loaded_next; try done.
  - by rewrite size_of_slice_fill.
  - rewrite size_of_block; rewrite ?length_arange, ?Hsl; lia || done.
  - rewrite size_of_block; rewrite ?Hsc; lia || done.
Qed.

Lemma load_locs_step (done : list (pydict ndarray)) (f_num : Z) (d : pydict ndarray)
    (s : columns) :
  Forall (λ d, aligned (negb ignore_z) (items d)) done →
  aligned (negb ignore_z) (items d) →
  (records_of (done ++ [d]) ≤ total)%nat →
  loaded total pix ignore_z done s →
  ∃ s', load_locs pix ignore_z (f_num, d) s = Ok s' ∧
        loaded total pix ignore_z (done ++ [d]) s'.
Proof.
  intros Hdone (x & y & c & Hx & Hy & Hc & Hyx & Hcx & Hz) Htot Hload.
  rewrite records_of_snoc, (column_Some _ _ _ Hx) in Htot. fold (size_of x) in Htot.
  unfold load_locs.
  destruct Hload as (Hstart & Hsx & Hsy & Hsz & Hsc & Hsl & Hsk).
  rewrite (dict_getitem_Some _ _ _ Hx), (dict_getitem_Some _ _ _ Hy),
    (dict_getitem_Some _ _ _ Hc); cbn [mbind result_bind].
  rewrite !Hstart, Hsx, Hsy, Hsz.
  rewrite (slice_assign_fits (col_loc_id _)) by (rewrite ?length_arange, ?Hsl; lia || done).
  cbn [mbind result_bind].
  rewrite (fill_column _ x _ _ _ _)
    by (rewrite ?length_converted; try done; eapply aligned_lengths; eauto).
  cbn [mbind result_bind].
  rewrite (fill_column _ y _ _ _ _)
    by (rewrite ?length_converted; try done; eapply aligned_lengths; eauto).
  cbn [mbind result_bind].
  rewrite (load_z_step done d x) by done. cbn [mbind result_bind].
  rewrite (slice_assign_fits (col_c _)) by (rewrite ?Hsc; lia || done).
  cbn [mbind result_bind].
  eexists. split; [done|]. apply loaded_next; try done.
  - by rewrite size_of_slice_fill.
  - rewrite size_of_block; rewrite ?length_arange, ?Hsl; lia || done.
  - rewrite size_of_block; rewrite ?Hsc; lia || done.
Qed.
Lemma records_of_app (ds1 ds2 : list (pydict ndarray)) :
  records_of (ds1 ++ ds2) = records_of ds1 + records_of ds2.
Proof. unfold records_of. by rewrite bind_app, length_app. Qed.

(** The loop over the track groups. *)
Lemma fold_load_tracks (rest done : list (pydict ndarray)) (k : nat) (s : columns) :
  Forall (λ d, aligned (negb ignore_z) (items d)) (done ++ rest) →
  (records_of (done ++ rest) ≤ total)%nat →
  loaded total pix ignore_z done s →
  ∃ s', fold_result (zip (seq k (length rest)) rest) (load_tracks pix ignore_z) s = Ok s' ∧
        loaded total pix ignore_z (done ++ rest) s'.
Proof.
  revert done k s. induction rest as [|d rest IH]; intros done k s Hal Htot Hload.
  - exists s. by rewrite (right_id_L [] (++)).
  - rewrite cons_middle, (assoc_L (++)) in Hal, Htot |- *.
    apply Forall_app in Hal as Hal'. destruct Hal' as [Hal1 _].
    apply Forall_app in Hal1 as [Hdone Hd]. apply Forall_cons in Hd as [Hd _].
    destruct (load_tracks_step done k d s) as (s1 & Hs1 & Hload1); try done.
    { rewrite records_of_app in Htot. lia. }
    destruct (IH (done ++ [d]) (S k) s1) as (s' & Hs' & Hload'); try done.
    exists s'. split; [|done]. cbn [length seq zip zip_with fold_result].
    rewrite Hs1. done.
Qed.

(** The loop over the frames. *)
Lemma fold_load_locs (rest : list (Z * pydict ndarray)) (done : list (pydict ndarray))
    (s : columns) :
  Forall (λ d, aligned (negb ignore_z) (items d)) (done ++ rest.*2) →
  (records_of (done ++ rest.*2) ≤ total)%nat →
  loaded total pix ignore_z done s →
  ∃ s', fold_result rest (load_locs pix ignore_z) s = Ok s' ∧
        loaded total pix ignore_z (done ++ rest.*2) s'.
Proof.
  revert done s. induction rest as [|[f_num d] rest IH]; intros done s Hal Htot Hload.
  - exists s. rewrite fmap_nil. by rewrite (right_id_L [] (++)).
  - rewrite fmap_cons in Hal, Htot |- *. cbn [snd] in Hal, Htot |- *.
    rewrite cons_middle, (assoc_L (++)) in Hal, Htot |- *.
    apply Forall_app in Hal as Hal'. destruct Hal' as [Hal1 _].
    apply Forall_app in Hal1 as [Hdone Hd]. apply Forall_cons in Hd as [Hd _].
    destruct (load_locs_step done f_num d s) as (s1 & Hs1 & Hload1); try done.
    { rewrite records_of_app in Htot. lia. }
    destruct (IH (done ++ [d]) s1) as (s' & Hs' & Hload'); try done.
    exists s'. split; [|done]. cbn [fold_result]. rewrite Hs1. done.
Qed.

Lemma loaded_start :
  loaded total pix ignore_z []
    (Columns 0 (zeros total int_) (zeros total int_) (zeros total float64)
       (zeros total float64) (zeros total float64) (zeros total int32)).
Proof.
  unfold loaded, zeros, size_of. cbn. rewrite Nat.sub_0_r, !length_replicate.
  split_and!; try done. by destruct ignore_z.
Qed.

(** The outputs once everything is loaded. *)
Lemma loaded_all (ds : list (pydict ndarray)) (s : columns) :
  total = records_of ds → loaded total pix ignore_z ds s →
  data (col_x s) = converted "x" pix ds ∧ data (col_y s) = converted "y" pix ds ∧
  data (col_z s) = if ignore_z then replicate total (zero float64)
                   else converted "z" f1000 ds.
Proof.
  intros Htot (_ & -> & -> & -> & _). cbn [data].
  rewrite <- Htot, Nat.sub_diag. cbn [replicate]. rewrite !(right_id_L [] (++)). done.
Qed.
End slices.

Section getDataForClustering.
Context `{RecordStore}.

(** C8. When the store streams its data sets without raising, every
    data set has its fields of one length, and the record count of the
    store is the number of records streamed, [getDataForClustering]
    returns [x] and [y] as the streamed "x" and "y" multiplied by the
    pixel size, and [z] as the streamed "z" multiplied by [1000.0]
    unless [ignore_z] is set, in which case [z] is all zeros.  (The
    products are stored in [float64] arrays.) *)
Theorem getDataForClustering_units (ignore_z : bool) :
  (streamed ignore_z).2 = None →
  Forall (λ d, aligned (negb ignore_z) (items d)) (streamed ignore_z).1 →
  store_total = records_of (streamed ignore_z).1 →
  ∃ x y z c cluster_data,
    getDataForClustering ignore_z = Ok (x, y, z, c, cluster_data) ∧
    data x = converted "x" getPixelSize (streamed ignore_z).1 ∧
    data y = converted "y" getPixelSize (streamed ignore_z).1 ∧
    data z = if ignore_z then replicate store_total (zero float64)
             else converted "z" f1000 (streamed ignore_z).1.
Proof.
  unfold streamed, store_total, getDataForClustering.
  destruct hasTracks; intros Hend Hal Htot.
  - destruct (tracksIterator _) as [ds ending]; cbn [fst snd] in *. subst ending.
    assert (records_of ds ≤ getNTracks)%nat as Hle by lia.
    destruct (fold_load_tracks getNTracks getPixelSize ignore_z ds [] 0 _ Hal Hle
                (loaded_start _ _ _)) as (s & Hs & Hload).
    unfold for_gen, enumerate. cbn [fst snd]. rewrite Hs. cbn [mbind result_bind].
    eexists _, _, _, _, _. split; [done|]. by apply loaded_all.
  - assert ((let fields := ["x"; "y"; "category"] in
             if negb ignore_z then fields ++ ["z"] else fields) =
            (if negb ignore_z then ["x"; "y"; "category"; "z"] else ["x"; "y"; "category"]))
      as Hfields by (by destruct ignore_z).
    cbv zeta in Hfields |- *. rewrite Hfields.
    destruct (localizationsIterator _) as [ds ending]; cbn [fst snd] in *. subst ending.
    assert (records_of ds.*2 ≤ getNLocalizations)%nat as Hle by lia.
    destruct (fold_load_locs getNLocalizations getPixelSize ignore_z ds [] _ Hal Hle
                (loaded_start _ _ _)) as (s & Hs & Hload).
    unfold for_gen. cbn [fst snd]. rewrite Hs. cbn [mbind result_bind].
    eexists _, _, _, _, _. split; [done|]. by apply loaded_all.
Qed.
End getDataForClustering.

Lemma ex_frame_aligned (f : Z) : @aligned z_numpy true (ex_frame f).
Proof.
  exists (zarr DFloat [10 * f; 10 * f + 1]%Z), (zarr DFloat [20 * f; 20 * f + 1]%Z),
         (zarr DInt32 [0; 1]%Z).
  split_and!; try reflexivity. intros _. exists (zarr DFloat [f; f + 1]%Z). by split.
Defined.

Lemma getDataForClustering_units_witness :
  (@streamed z_numpy z_store false).2 = None ∧
  @store_total z_numpy z_store = @records_of z_numpy (@streamed z_numpy z_store false).1 ∧
  ∃ x y z c cluster_data,
    @getDataForClustering z_numpy z_store false = Ok (x, y, z, c, cluster_data) ∧
    data x = [0; 160; 1600; 1760]%Z ∧ data z = [0; 1000; 1000; 2000]%Z.
Proof.
  split; [reflexivity|]. split; [reflexivity|].
  assert (Forall (λ d : pydict (@ndarray z_numpy), @aligned z_numpy (negb false) (items d))
            (@streamed z_numpy z_store false).1) as Hal
    by (repeat constructor; apply ex_frame_aligned).
  destruct (@getDataForClustering_units z_numpy z_store false eq_refl Hal eq_refl)
    as (x & y & z & c & cluster_data & Hrun & Hx & _ & Hz).
  exists x, y, z, c, cluster_data. split; [exact Hrun|]. split; [exact Hx | exact Hz].
Defined.

(** ** The example, run *)

Example addClusters_example :
  @addClusters z_numpy None ex_ids ex_data =
    (Some (@ClustersGrp z_numpy
             (<["cl_0" := @ClGrp z_numpy (<["frame" := zarr DInt [0]%Z]>
                                            (<["loc_id" := zarr DInt [1]%Z]> ∅)) (Some 1%Z)]>
              (<["cl_1" := @ClGrp z_numpy (<["frame" := zarr DInt [0; 1]%Z]>
                                             (<["loc_id" := zarr DInt [0; 0]%Z]> ∅)) (Some 2%Z)]>
               (<["cl_2" := @ClGrp z_numpy (<["frame" := zarr DInt [1]%Z]>
                                              (<["loc_id" := zarr DInt [1]%Z]> ∅)) (Some 1%Z)]>
                ∅)))
             (Some 2%Z) None), Ok ()).
Proof. reflexivity. Qed.

Example getClusterData_example :
  @getClusterData z_numpy z_store ex_file 1 None =
    Ok [("x", zarr DFloat [0; 10]%Z); ("y", zarr DFloat [0; 20]%Z);
        ("z", zarr DFloat [0; 1]%Z); ("category", zarr DInt32 [0; 0]%Z);
        ("frame", zarr DInt [0; 1]%Z); ("loc_id", zarr DInt [0; 0]%Z)].
Proof. reflexivity. Qed.

Example clustersIterator_example :
  fst <$> (@clustersIterator z_numpy z_store ex_file None 1 true).1 = [1%Z] ∧
  fst <$> (@clustersIterator z_numpy z_store ex_file None 0 false).1 = [0; 1; 2]%Z ∧
  @clustersIterator z_numpy z_store None None 0 true = ([], None).
Proof. split_and!; reflexivity. Qed.

Example getDataForClustering_example :
  @getDataForClustering z_numpy z_store true =
    Ok (zarr DFloat [0; 160; 1600; 1760]%Z, zarr DFloat [0; 160; 3200; 3360]%Z,
        zarr DFloat [0; 0; 0; 0]%Z, zarr DInt32 [0; 1; 0; 1]%Z,
        [("frame", zarr DInt [0; 0; 1; 1]%Z); ("loc_id", zarr DInt [0; 1; 0; 1]%Z)]).
Proof. reflexivity. Qed.

(** * Further properties *)

(** ** addClusters and the previous container *)

Lemma for_each_invariant {S A} (P : S → Prop) (xs : list A) (body : A → S → S * result unit)
    (s : S) :
  (∀ x s, P s → P (body x s).1) → P s → P (for_each xs body s).1.
Proof.
  intros Hbody. revert s. induction xs as [|x xs IH]; intros s Hs; [done|].
  cbn [for_each]. specialize (Hbody x s Hs).
  destruct (body x s) as [s' [[]|e]]; cbn [fst] in *; [by apply IH | done].
Qed.

Section addClusters_state.
Context `{Numpy}.

Lemma addClusters_invalid_state (h : hdf5) (a : list Z) (b : pydict ndarray) :
  a = [] ∨ ¬ conforming a b → (addClusters h a b).1 = Some empty_clusters_grp.
Proof.
  intros Hbad. unfold addClusters.
  assert ((if hasClusters h then None else h) = None) as -> by (by destruct h).
  destruct (check_sizes b (length a)) as [[]|e] eqn:Hchk; [|done].
  apply check_sizes_Ok in Hchk. destruct Hbad as [->|Hbad]; done.
Qed.

Lemma add_cluster_info (a : list Z) (b : dict ndarray) (i : Z) (st : clusters_grp * Z) :
  info st.1 = None → info (add_cluster a b i st).1.1 = None.
Proof.
  destruct st as [c n]. unfold add_cluster. cbn [fst]. intros Hinfo.
  case_bool_decide; [|done].
  destruct (groups c !! getClusterName n); [done|].
  by destruct (for_each b _ _) as [g [[]|e]].
Qed.

(** X1. The outcome of [addClusters] does not depend on what the file
    held before: the previous container is deleted first.  In
    particular a second call with the same arguments changes nothing. *)
Theorem addClusters_replaces (h h' : hdf5) (a : list Z) (b : pydict ndarray) :
  addClusters h a b = addClusters h' a b ∧
  addClusters (addClusters h a b).1 a b = addClusters h a b.
Proof.
  assert (∀ h1 h2, addClusters h1 a b = addClusters h2 a b) as Heq.
  { intros h1 h2. unfold addClusters.
    assert ((if hasClusters h1 then None else h1) = None) as -> by (by destruct h1).
    assert ((if hasClusters h2 then None else h2) = None) as -> by (by destruct h2).
    done. }
  split; apply Heq.
Qed.

(** X2. Whatever the arguments and the outcome, the file holds a
    container after [addClusters], and that container has no
    description: [getClusteringInfo] raises the [KeyError] of the
    missing attribute, also when a description had been stored before. *)
Theorem addClusters_drops_info (h : hdf5) (a : list Z) (b : pydict ndarray) :
  hasClusters (addClusters h a b).1 = true ∧
  getClusteringInfo (addClusters h a b).1 = Raise (KeyError "info").
Proof.
  assert (∃ c, (addClusters h a b).1 = Some c ∧ info c = None) as (c & -> & Hc);
    [|by unfold getClusteringInfo; cbn; rewrite Hc].
  unfold addClusters.
  assert ((if hasClusters h then None else h) = None) as -> by (by destruct h).
  destruct (check_sizes b (length a)) as [[]|e]; [|by eexists].
  destruct (amin a) as [lo|e]; [|by eexists].
  destruct (amax a) as [hi|e]; [|by eexists].
  pose proof (for_each_invariant (λ st : clusters_grp * Z, info st.1 = None)
                (range lo (int64_wrap (hi + 1))) (add_cluster a b) (empty_clusters_grp, 0%Z)
                (add_cluster_info a b) eq_refl) as Hinv.
  destruct (for_each _ _ _) as [[c n] [[]|e]]; cbn [fst] in *; by eexists.
Qed.

(** X3. After a call of [addClusters] that was rejected (empty
    assignment, or an array of the wrong length) the file has a
    container without a count and without groups: [hasClusters] is
    true, [getNClusters] raises, every group lookup returns [None]. *)
Theorem addClusters_rejected_container (h : hdf5) (a : list Z) (b : pydict ndarray)
    (index : Z) :
  a = [] ∨ ¬ conforming a b →
  hasClusters (addClusters h a b).1 = true ∧
  getNClusters (addClusters h a b).1 = Raise (KeyError "n_clusters") ∧
  getClusterGroup (addClusters h a b).1 index = Ok None.
Proof. intros Hbad. by rewrite addClusters_invalid_state. Qed.
End addClusters_state.

Lemma addClusters_rejected_container_witness :
  ¬ @conforming z_numpy ex_ids ex_bad_data ∧
  @getNClusters z_numpy (@addClusters z_numpy ex_file ex_ids ex_bad_data).1
    = Raise (KeyError "n_clusters").
Proof.
  assert (¬ @conforming z_numpy ex_ids ex_bad_data) as Hbad.
  { intros Hb. apply Forall_cons in Hb as [_ Hb]. apply Forall_cons in Hb as [Hb _].
    discriminate Hb. }
  split; [exact Hbad|].
  exact (proj1 (proj2 (@addClusters_rejected_container z_numpy ex_file ex_ids ex_bad_data 0
                         (or_intror Hbad)))).
Defined.

(** X4. Distinct indices have distinct group names. *)
Theorem getClusterName_distinct (i j : Z) : i ≠ j → getClusterName i ≠ getClusterName j.
Proof. intros Hij Heq. by apply getClusterName_inj in Heq. Qed.

Lemma getClusterName_distinct_witness : getClusterName 1 ≠ getClusterName (-1).
Proof. apply getClusterName_distinct. discriminate. Defined.

(** ** The description and the readers *)

Section readers_frame.
Context `{RecordStore}.

Lemma getClusterData_group (h h' : hdf5) (index : Z) (fields : option (list string)) :
  getClusterGroup h' index = getClusterGroup h index →
  getClusterData h' index fields = getClusterData h index fields.
Proof. intros Hg. unfold getClusterData. by rewrite Hg. Qed.

Lemma iterate_clusters_group (h h' : hdf5) (fields : option (list string)) (min_size : Z)
    (indices : list Z) :
  (∀ i, getClusterGroup h' i = getClusterGroup h i) →
  iterate_clusters h' fields min_size indices = iterate_clusters h fields min_size indices.
Proof.
  intros Hg. induction indices as [|i indices IH]; [done|].
  cbn [iterate_clusters]. by rewrite Hg, (getClusterData_group h h') , IH.
Qed.

(** X5. Storing a description changes nothing the readers see: the
    groups, the count, the cluster data and the iteration are the same
    before and after [setClusteringInfo]. *)
Theorem setClusteringInfo_frame (h : hdf5) (text : string) (index : Z)
    (fields : option (list string)) (min_size : Z) (skip_unclustered : bool) :
  let h' := (setClusteringInfo h text).1 in
  hasClusters h' = hasClusters h ∧
  getNClusters h' = getNClusters h ∧
  getClusterGroup h' index = getClusterGroup h index ∧
  getClusterData h' index fields = getClusterData h index fields ∧
  clustersIterator h' fields min_size skip_unclustered =
    clustersIterator h fields min_size skip_unclustered.
Proof.
  destruct h as [c|]; [|done]. cbn zeta.
  assert (∀ i, getClusterGroup (setClusteringInfo (Some c) text).1 i
               = getClusterGroup (Some c) i) as Hg
    by (intros i; cbn [setClusteringInfo getClusters fst]; by rewrite !getClusterGroup_Some).
  split_and!; try done; [by apply getClusterData_group ..|].
  unfold clustersIterator. cbn [setClusteringInfo getClusters fst hasClusters negb].
  unfold getNClusters. cbn [getClusters mbind result_bind n_clusters].
  destruct (n_clusters c); [|done]. by apply iterate_clusters_group.
Qed.

(** ** getClusterData: what raises *)

(** X6. For an index without a group [getClusterData] raises: the
    [TypeError] of iterating over [None] when the file has a container,
    the [KeyError] of the missing container otherwise. *)
Theorem getClusterData_absent (h : hdf5) (index : Z) (fields : option (list string)) :
  (∀ g, getClusterGroup h index ≠ Ok (Some g)) →
  getClusterData h index fields =
    Raise (if hasClusters h then TypeError else KeyError "clusters").
Proof.
  intros Hg. unfold getClusterData. destruct h as [c|]; [|done].
  rewrite getClusterGroup_Some in *. destruct (groups c !! getClusterName index) as [g|]; [|done].
  by destruct (Hg g).
Qed.

(** X7. A group that has datasets but neither a "frame" nor a
    "track_id" field is taken for a track cluster, and the call raises
    the [KeyError] of the missing "track_id". *)
Theorem getClusterData_no_key (c : clusters_grp) (index : Z) (fields : option (list string))
    (g : cl_grp) :
  groups c !! getClusterName index = Some g →
  datasets g ≠ ∅ → datasets g !! "frame" = None → datasets g !! "track_id" = None →
  getClusterData (Some c) index fields = Raise (KeyError "track_id").
Proof.
  intros Hg Hne Hframe Htrack. unfold getClusterData.
  rewrite getClusterGroup_Some, Hg. cbn [mbind result_bind].
  rewrite getCluster_Some. cbn [mbind result_bind].
  destruct (dict_is_empty (map_to_list (datasets g))) eqn:Hempty.
  { by apply map_to_list_is_empty in Hempty. }
  unfold dict_mem, dict_getitem. rewrite !dict_get_map_to_list, Hframe, Htrack.
  rewrite bool_decide_false; [done|]. by intros [? ?].
Qed.
End readers_frame.

Lemma getClusterData_absent_witness :
  (∀ g, @getClusterGroup z_numpy ex_file 7 ≠ Ok (Some g)) ∧
  @getClusterData z_numpy z_store ex_file 7 None = Raise TypeError.
Proof.
  assert (∀ g, @getClusterGroup z_numpy ex_file 7 ≠ Ok (Some g)) as Hg by (intros g; discriminate).
  split; [exact Hg|]. exact (@getClusterData_absent z_numpy z_store ex_file 7 None Hg).
Defined.

Lemma getClusterData_no_key_witness :
  groups ex_offsets_container !! getClusterName 1
    = Some (@ClGrp z_numpy (<["loc_id" := zarr DInt [0; 0]%Z]> ∅) (Some 2%Z)) ∧
  @getClusterData z_numpy z_store (Some ex_offsets_container) 1 None
    = Raise (KeyError "track_id").
Proof.
  assert (groups ex_offsets_container !! getClusterName 1
          = Some (@ClGrp z_numpy (<["loc_id" := zarr DInt [0; 0]%Z]> ∅) (Some 2%Z))) as Hg
    by reflexivity.
  split; [exact Hg|].
  apply (@getClusterData_no_key z_numpy z_store ex_offsets_container 1 None _ Hg).
  - intros Hempty. apply (f_equal (λ m : gmap string (@ndarray z_numpy), m !! "loc_id")) in Hempty.
    discriminate Hempty.
  - reflexivity.
  - reflexivity.
Defined.

(** ** The index of a cluster id *)

Lemma StronglySorted_sublist {A} (R : relation A) (l k : list A) :
  l `sublist_of` k → StronglySorted R k → StronglySorted R l.
Proof.
  induction 1 as [|x l k Hlk IH|x l k Hlk IH]; intros Hk; [done|..].
  - apply StronglySorted_inv in Hk as [Hk Hx]. constructor; [by apply IH|].
    apply Forall_forall. intros y Hy. eapply Forall_forall in Hx; [done|].
    by eapply elem_of_sublist.
  - apply StronglySorted_inv in Hk as [Hk _]. by apply IH.
Qed.

Lemma StronglySorted_seq (s n : nat) : StronglySorted lt (seq s n).
Proof.
  revert s. induction n as [|n IH]; intros s; [constructor|].
  cbn [seq]. constructor; [apply IH|].
  apply Forall_forall. intros j Hj%elem_of_seq. lia.
Qed.

Lemma StronglySorted_seqZ (m n : Z) : StronglySorted Z.lt (seqZ m n).
Proof.
  unfold seqZ. eapply StronglySorted_fmap; [|apply StronglySorted_seq].
  intros x y Hxy. cbn. lia.
Qed.

Lemma StronglySorted_occupied_ids (a : list Z) : StronglySorted Z.lt (occupied_ids a).
Proof.
  unfold occupied_ids. destruct (amin a), (amax a); try constructor.
  eapply StronglySorted_sublist; [apply sublist_filter | apply StronglySorted_seqZ].
Qed.

Lemma filter_none {A} (P : A → Prop) `{!∀ x, Decision (P x)} (l : list A) :
  (∀ x, x ∈ l → ¬ P x) → filter P l = [].
Proof.
  induction l as [|x l IH]; intros Hl; [done|].
  rewrite filter_cons, decide_False by (apply Hl; left).
  apply IH. intros y Hy. apply Hl. by right.
Qed.

(** In a strictly ascending list an element sits at the position given
    by the number of smaller elements. *)
Lemma sorted_lookup_rank (l : list Z) (i : Z) :
  StronglySorted Z.lt l → i ∈ l → l !! length (filter (λ j, (j < i)%Z) l) = Some i.
Proof.
  induction 1 as [|x l Hl IH Hx]; intros Hi; [by apply elem_of_nil in Hi|].
  rewrite filter_cons. apply elem_of_cons in Hi as [->|Hi].
  - rewrite decide_False by lia. rewrite filter_none; [done|].
    intros y Hy. eapply Forall_forall in Hx; [|exact Hy]. lia.
  - eapply Forall_forall in Hx as Hxi; [|exact Hi].
    rewrite decide_True by done. cbn. by apply IH.
Qed.

Lemma rank_occupied_ids (a : list Z) (i : Z) :
  rank a i = length (filter (λ j, (j < i)%Z) (occupied_ids a)).
Proof.
  unfold rank.
  rewrite <- (size_list_to_set (C := gset Z))
    by apply NoDup_filter, NoDup_occupied_ids.
  f_equal. apply set_eq. intros j.
  rewrite elem_of_filter, !elem_of_list_to_set, list_elem_of_filter, elem_of_occupied_ids.
  done.
Qed.

Lemma lookup_rank (a : list Z) (i : Z) : i ∈ a → occupied_ids a !! rank a i = Some i.
Proof.
  intros Hi. rewrite rank_occupied_ids.
  apply sorted_lookup_rank; [apply StronglySorted_occupied_ids | by apply elem_of_occupied_ids].
Qed.

Section lookup_by_rank.
Context `{Numpy}.

(** X8. After a partition of 64-bit ids below the largest one, with
    plain field names, the records of an id [i] of the assignment
    are found under the index that counts the distinct ids smaller than
    [i]: [getClusterGroup] returns a group whose [cl_size] is the number
    of records of [i], and [getCluster] turns it into the mapping from
    every field of the bundle to its elements at the records of [i]. *)
Theorem addClusters_lookup_by_rank (h : hdf5) (a : list Z) (b : pydict ndarray) (i : Z) :
  below_max a → plain_names (items b) → conforming a b → i ∈ a →
  ∃ g cl_dict,
    (addClusters h a b).2 = Ok () ∧
    getClusterGroup (addClusters h a b).1 (Z.of_nat (rank a i)) = Ok (Some g) ∧
    cl_size g = Some (Z.of_nat (members a i)) ∧
    getCluster (Some g) = Ok cl_dict ∧
    ∀ f, dict_get f cl_dict = masked a i <$> dict_get f b.
Proof.
  intros Hmax _ Hb Hi. assert (a ≠ []) as Ha by (intros ->; by apply elem_of_nil in Hi).
  rewrite addClusters_Ok by done. cbn [fst snd].
  rewrite getClusterGroup_Some. cbn [groups].
  rewrite placed_lookup, decide_True, Z.sub_0_r, Nat2Z.id, lookup_rank by (done || lia).
  cbn [fmap option_fmap option_map].
  exists (group_of a b i), (map_to_list (datasets (group_of a b i))).
  split_and!; [done | done | done | apply getCluster_Some |].
  intros f. by rewrite dict_get_map_to_list, datasets_group_of.
Qed.

End lookup_by_rank.

Lemma ex_one_in_ids : (1 : Z) ∈ ex_ids.
Proof. left. Defined.

Lemma addClusters_lookup_by_rank_witness :
  below_max ex_ids ∧ plain_names (items ex_data) ∧
  @conforming z_numpy ex_ids ex_data ∧ (1 : Z) ∈ ex_ids ∧
  ∃ g, @getClusterGroup z_numpy (@addClusters z_numpy None ex_ids ex_data).1
         (Z.of_nat (rank ex_ids 1)) = Ok (Some g) ∧
       cl_size g = Some 2%Z.
Proof.
  split; [exact ex_ids_below_max|]. split; [exact ex_data_plain_names|].
  split; [exact ex_data_conforming|]. split; [exact ex_one_in_ids|].
  destruct (@addClusters_lookup_by_rank z_numpy None ex_ids ex_data 1
              ex_ids_below_max ex_data_plain_names
              ex_data_conforming ex_one_in_ids) as (g & cl_dict & _ & Hg & Hsize & _).
  exists g. split; [exact Hg | exact Hsize].
Defined.


(** ** clustersIterator: what is yielded *)

Section iterator_yields.
Context `{RecordStore}.

Lemma iterate_clusters_sublist (h : hdf5) (fields : option (list string)) (min_size : Z)
    (indices : list Z) :
  (iterate_clusters h fields min_size indices).1.*1 `sublist_of` indices.
Proof.
  induction indices as [|i indices IH]; [done|]. cbn [iterate_clusters].
  destruct (getClusterGroup h i) as [[g|]|e]; try apply sublist_nil_l.
  destruct (cl_size g) as [s|]; [|apply sublist_nil_l].
  case_bool_decide; [|by apply sublist_cons].
  destruct (getClusterData h i fields) as [cl|e]; [|apply sublist_nil_l].
  destruct (iterate_clusters h fields min_size indices) as [ys ending].
  cbn [fst fmap list_fmap] in *. by apply sublist_skip.
Qed.

Lemma iterate_clusters_elem (h : hdf5) (fields : option (list string)) (min_size : Z)
    (indices : list Z) (i : Z) (d : dict ndarray) :
  (i, d) ∈ (iterate_clusters h fields min_size indices).1 →
  getClusterData h i fields = Ok d ∧
  ∃ g s, getClusterGroup h i = Ok (Some g) ∧ cl_size g = Some s ∧ (s > min_size)%Z.
Proof.
  induction indices as [|j indices IH]; cbn [iterate_clusters fst].
  { intros Hin. by apply elem_of_nil in Hin. }
  destruct (getClusterGroup h j) as [[g|]|e] eqn:Hg;
    try (intros Hin; by apply elem_of_nil in Hin).
  destruct (cl_size g) as [s|] eqn:Hs; [|intros Hin; by apply elem_of_nil in Hin].
  case_bool_decide as Hgt; [|done].
  destruct (getClusterData h j fields) as [cl|e] eqn:Hcl;
    [|intros Hin; by apply elem_of_nil in Hin].
  destruct (iterate_clusters h fields min_size indices) as [ys ending].
  cbn [fst] in *. intros [[= -> ->]|Hin]%elem_of_cons; [|by apply IH].
  split; [done|]. by exists g, s.
Qed.

(** X10. Whatever the file holds, a pair [(i, d)] yielded by the
    iterator has an index between the start index (1 when the
    unclustered group is skipped, else 0) and the stored count, the
    group of that index has a stored size strictly greater than
    [min_size], and [d] is what [getClusterData] returns for [i]. *)
Theorem clustersIterator_sound (h : hdf5) (fields : option (list string)) (min_size : Z)
    (skip_unclustered : bool) (i : Z) (d : dict ndarray) :
  (i, d) ∈ (clustersIterator h fields min_size skip_unclustered).1 →
  ∃ c n s, h = Some c ∧ n_clusters c = Some n ∧
    ((if skip_unclustered then 1 else 0) ≤ i ≤ n)%Z ∧
    stored_size c i = Some s ∧ (s > min_size)%Z ∧
    getClusterData h i fields = Ok d.
Proof.
  unfold clustersIterator, getNClusters. destruct h as [c|]; cbn.
  2:{ intros Hin. by apply elem_of_nil in Hin. }
  destruct (n_clusters c) as [n|] eqn:Hn; [|intros Hin; by apply elem_of_nil in Hin].
  intros Hin.
  pose proof (iterate_clusters_sublist (Some c) fields min_size
                (range (if negb skip_unclustered then 0%Z else 1%Z) (n + 1))) as Hsub.
  assert (i ∈ range (if negb skip_unclustered then 0%Z else 1%Z) (n + 1)) as Hi.
  { eapply elem_of_sublist; [|exact Hsub]. apply list_elem_of_fmap. by exists (i, d). }
  unfold range in Hi. apply elem_of_seqZ in Hi.
  apply iterate_clusters_elem in Hin as (Hd & g & s & Hg & Hs & Hgt).
  rewrite getClusterGroup_Some in Hg. injection Hg as Hg.
  exists c, n, s. split_and!; try done.
  - destruct skip_unclustered; cbn in *; lia.
  - destruct skip_unclustered; cbn in *; lia.
  - unfold stored_size. by rewrite Hg.
Qed.

(** X11. The iterator yields its indices in strictly ascending order,
    hence none twice. *)
Theorem clustersIterator_ascending (h : hdf5) (fields : option (list string)) (min_size : Z)
    (skip_unclustered : bool) :
  StronglySorted Z.lt (clustersIterator h fields min_size skip_unclustered).1.*1.
Proof.
  unfold clustersIterator. destruct (negb (hasClusters h)); [constructor|].
  destruct (getNClusters h) as [n|e]; [|constructor].
  eapply StronglySorted_sublist; [apply iterate_clusters_sublist|].
  apply StronglySorted_seqZ.
Qed.

Lemma filter_all {A} (P : A → Prop) `{!∀ x, Decision (P x)} (l : list A) :
  (∀ x, x ∈ l → P x) → filter P l = l.
Proof.
  induction l as [|x l IH]; intros Hl; [done|].
  rewrite filter_cons, decide_True by (apply Hl; left).
  f_equal. apply IH. intros y Hy. apply Hl. by right.
Qed.

Lemma yield_all_Ok {A} (rs : list (Z * result A)) :
  (∀ ir, ir ∈ rs → ∃ d, ir.2 = Ok d) →
  (yield_all rs).2 = None ∧ (yield_all rs).1.*1 = rs.*1.
Proof.
  induction rs as [|[i r] rs IH]; intros Hrs; [done|].
  destruct (Hrs (i, r)) as [d Hd]; [left|]. cbn in Hd. subst r.
  destruct IH as [IH1 IH2]; [intros; apply Hrs; by right|].
  cbn [yield_all]. destruct (yield_all rs) as [ys ending].
  cbn [fst snd] in *. split; [done|]. rewrite !fmap_cons. cbn [fst]. by rewrite IH2.
Qed.

Lemma addClusters_sizes_positive (h h' : hdf5) (a : list Z) (b : pydict ndarray) :
  addClusters h a b = (h', Ok ()) →
  ∃ c n, h' = Some c ∧ n_clusters c = Some n ∧
    ∀ i, (0 ≤ i ≤ n)%Z → ∃ s, stored_size c i = Some s ∧ (0 < s)%Z.
Proof.
  intros Hadd. destruct (addClusters_Ok_inv _ _ _ _ Hadd) as [Ha Hb].
  rewrite addClusters_stored in Hadd by done. injection Hadd as <-.
  eexists _, _. split_and!; [done..|]. cbn. intros i Hi.
  unfold stored_size. cbn. rewrite placed_lookup, decide_True, Z.sub_0_r by lia.
  destruct (lookup_lt_is_Some_2 (stored_ids a) (Z.to_nat i)) as [j Hj]; [lia|].
  rewrite Hj. cbn. eexists. split; [done|].
  assert (j ∈ a) as Hin%members_pos; [|lia].
  apply elem_of_stored_ids. by eapply list_elem_of_lookup_2.
Qed.

(** X12. After a partition of 64-bit ids below the largest one,
    [getNClusters()] is not negative and, when [getClusterData] returns
    for every index from the start index to [getNClusters()], an
    iteration with a [min_size] of at most 0 runs to its end without
    raising and visits every one of these indices: with the unclustered
    group skipped, exactly [getNClusters()] clusters. *)
Theorem clustersIterator_visits_all (h h' : hdf5) (a : list Z) (b : pydict ndarray)
    (fields : option (list string)) (min_size : Z) (skip_unclustered : bool) (n : Z) :
  addClusters h a b = (h', Ok ()) →
  below_max a →
  getNClusters h' = Ok n →
  (min_size ≤ 0)%Z →
  (∀ i, ((if skip_unclustered then 1 else 0) ≤ i ≤ n)%Z →
        ¬ raises (getClusterData h' i fields)) →
  (0 ≤ n)%Z ∧
  (clustersIterator h' fields min_size skip_unclustered).2 = None ∧
  (clustersIterator h' fields min_size skip_unclustered).1.*1 =
    range (if skip_unclustered then 1 else 0) (n + 1) ∧
  (skip_unclustered = true →
   length (clustersIterator h' fields min_size skip_unclustered).1 = Z.to_nat n).
Proof.
  intros Hadd Hmax Hcount Hmin Hdata. split.
  { destruct (addClusters_Ok_inv _ _ _ _ Hadd) as [Ha Hb].
    rewrite addClusters_Ok in Hadd by done. injection Hadd as <-.
    unfold getNClusters in Hcount. cbn in Hcount. injection Hcount as <-.
    destruct (amin_amax_nonempty a Ha) as (lo & hi & Hlo & Hhi).
    destruct (occupied_ids_head a lo Hlo) as [ids ->]. cbn [length]. lia. }
  destruct (addClusters_sizes_positive _ _ _ _ Hadd) as (c & n' & -> & Hn & Hsizes).
  unfold getNClusters in Hcount. cbn in Hcount. rewrite Hn in Hcount.
  injection Hcount as ->.
  unfold clustersIterator, getNClusters. cbn. rewrite Hn.
  assert ((if negb skip_unclustered then 0%Z else 1%Z) =
          (if skip_unclustered then 1%Z else 0%Z)) as -> by (by destruct skip_unclustered).
  set (start := if skip_unclustered then 1%Z else 0%Z) in *.
  assert (0 ≤ start ≤ 1)%Z as Hstart by (subst start; destruct skip_unclustered; lia).
  rewrite iterate_clusters_spec.
  2:{ intros i Hi%elem_of_seqZ. destruct (Hsizes i) as (s & -> & _); [lia|done]. }
  rewrite filter_all.
  2:{ intros i Hi%elem_of_seqZ. unfold exceeds.
      destruct (Hsizes i) as (s & -> & Hs); [lia|]. apply bool_decide_pack. lia. }
  destruct (yield_all_Ok ((λ i, (i, getClusterData (Some c) i fields))
                            <$> range start (n + 1))) as [Hend Hfst].
  { intros [i r] (j & [= -> ->] & Hj%elem_of_seqZ)%list_elem_of_fmap. cbn.
    destruct (getClusterData (Some c) j fields) as [d|e] eqn:Hd; [by exists d|].
    destruct (Hdata j); [lia|]. by exists e. }
  split; [done|]. rewrite <- list_fmap_compose in Hfst.
  assert ((fst ∘ (λ i, (i, getClusterData (Some c) i fields))) <$> range start (n + 1)
          = range start (n + 1)) as Hid.
  { rewrite <- (list_fmap_id (range start (n + 1))) at 2. by apply list_fmap_ext. }
  rewrite Hid in Hfst. split; [done|].
  intros Hskip. rewrite <- (length_fmap fst), Hfst. unfold range. rewrite length_seqZ.
  subst start. rewrite Hskip. lia.
Qed.
End iterator_yields.

Lemma clustersIterator_sound_witness :
  ∃ d, (1%Z, d) ∈ (@clustersIterator z_numpy z_store ex_file None 1 true).1 ∧
       @getClusterData z_numpy z_store ex_file 1 None = Ok d.
Proof.
  eexists. split; [left|].
  match goal with
  | |- _ = Ok ?d =>
      destruct (@clustersIterator_sound z_numpy z_store ex_file None 1 true 1 d
                  (list_elem_of_here _ _)) as (c & n & s & _ & _ & _ & _ & _ & Hd)
  end.
  exact Hd.
Defined.

Lemma ex_file_data_returns (i : Z) :
  (1 ≤ i ≤ 2)%Z → ¬ raises (@getClusterData z_numpy z_store ex_file i None).
Proof.
  intros Hi [e He].
  assert (i = 1 ∨ i = 2)%Z as [-> | ->] by lia; vm_compute in He; discriminate He.
Defined.

Lemma clustersIterator_visits_all_witness :
  @addClusters z_numpy None ex_ids ex_data = (ex_file, Ok ()) ∧
  below_max ex_ids ∧
  @getNClusters z_numpy ex_file = Ok 2%Z ∧
  length (@clustersIterator z_numpy z_store ex_file None 0 true).1 = 2.
Proof.
  split; [exact ex_file_eq|]. split; [exact ex_ids_below_max|]. split; [reflexivity|].
  exact (proj2 (proj2 (proj2
           (@clustersIterator_visits_all z_numpy z_store None ex_file ex_ids ex_data
              None 0 true 2 ex_file_eq ex_ids_below_max eq_refl ltac:(lia)
              ex_file_data_returns)))
           eq_refl).
Defined.

(** ** Partition, then reconstruction *)

Section reconstruct.
Context `{RecordStore}.

Lemma np_item_nat (arr : ndarray) (j : nat) :
  np_item arr (Z.of_nat j) = from_option Ok (Raise IndexError) (data arr !! j).
Proof.
  unfold np_item. cbv zeta. rewrite (bool_decide_false (Z.of_nat j < 0)%Z) by lia.
  case_bool_decide as Hj.
  - by rewrite Nat2Z.id.
  - rewrite lookup_ge_None_2; [done|]. unfold size_of in Hj. lia.
Qed.

Lemma gather_lookup {A} (xs : list A) (ps : list nat) (j : nat) :
  (∀ p, p ∈ ps → p < length xs) →
  gather xs ps !! j = ps !! j ≫= (xs !!.).
Proof.
  revert j. induction ps as [|p ps IH]; intros j Hps; [done|].
  unfold gather in *. cbn [omap list_omap].
  destruct (lookup_lt_is_Some_2 xs p) as [x Hx]; [apply Hps; left|]. rewrite Hx.
  destruct j as [|j]; cbn; [done|]. apply IH. intros q Hq. apply Hps. by right.
Qed.

Lemma positions_lt (a : list Z) (i : Z) (p : nat) : p ∈ positions a i → p < length a.
Proof. intros Hp%elem_of_positions. by eapply lookup_lt_Some. Qed.

Lemma np_item_masked (a : list Z) (i : Z) (arr : ndarray) (j : nat) :
  size_of arr = length a → j < members a i →
  np_item (masked a i arr) (Z.of_nat j) = np_item arr (Z.of_nat (positions a i !!! j)).
Proof.
  intros Hsize Hj. rewrite !np_item_nat. unfold masked. cbn [data].
  rewrite gather_lookup by (intros p Hp%positions_lt; unfold size_of in Hsize; lia).
  rewrite members_positions in Hj.
  destruct (lookup_lt_is_Some_2 (positions a i) j Hj) as [p Hp].
  by rewrite Hp, (list_lookup_total_correct _ _ _ Hp).
Qed.

Lemma length_gather {A} (xs : list A) (ps : list nat) :
  (∀ p, p ∈ ps → p < length xs) → length (gather xs ps) = length ps.
Proof.
  induction ps as [|p ps IH]; intros Hps; [done|].
  unfold gather in *. cbn [omap list_omap].
  destruct (lookup_lt_is_Some_2 xs p) as [x Hx]; [apply Hps; left|]. rewrite Hx.
  cbn. f_equal. apply IH. intros q Hq. apply Hps. by right.
Qed.

Lemma size_of_masked (a : list Z) (i : Z) (arr : ndarray) :
  size_of arr = length a → size_of (masked a i arr) = members a i.
Proof.
  intros Hsize. rewrite members_positions. unfold size_of, masked in *. cbn [data].
  apply length_gather. intros p Hp%positions_lt. lia.
Qed.

Lemma conforming_size (a : list Z) (b : dict ndarray) (f : string) (arr : ndarray) :
  conforming a b → dict_get f b = Some arr → size_of arr = length a.
Proof.
  intros Hb Hf%dict_get_Some_elem. eapply Forall_forall in Hb; [|exact Hf]. exact Hb.
Qed.

(** X13. Partition, then reconstruction.  After [addClusters] with
    64-bit ids below the largest one and a conforming bundle with plain
    field names that holds the key field of its mode and "loc_id",
    [getClusterData] at the index of an id [i] returns, when the
    single-record lookups of the records of [i] succeed and name the
    same fields, the looked-up values of exactly these records, in the
    order of the assignment (row [j] is the [j]-th record carrying [i]),
    together with the fields of the bundle restricted to these records. *)
Theorem partition_then_reconstruct (h : hdf5) (a : list Z) (b : pydict ndarray) (i : Z)
    (fields : option (list string)) (ids locs : ndarray) (R : nat → dict (dtype * value)) :
  below_max a → plain_names (items b) → conforming a b → i ∈ a →
  dict_get (key_field (group_of a b i)) b = Some ids →
  dict_get "loc_id" b = Some locs →
  (∀ p, a !! p = Some i →
     single_record (fetch_records (group_of a b i) fields) ids locs p = Ok (R p)) →
  (∀ p q f, a !! p = Some i → a !! q = Some i →
     is_Some (dict_get f (R p)) → is_Some (dict_get f (R q))) →
  ∃ cl joined,
    getClusterData (addClusters h a b).1 (Z.of_nat (rank a i)) fields = Ok cl ∧
    filled (λ j, R (positions a i !!! j)) (members a i) (members a i) joined ∧
    ∀ f, dict_get f cl =
           match dict_get f b with
           | Some arr => Some (masked a i arr)
           | None => dict_get f joined
           end.
Proof.
  intros Hmax _ Hb Hi Hids Hlocs HR Huni.
  assert (a ≠ []) as Ha by (intros ->; by apply elem_of_nil in Hi).
  pose proof (conforming_size _ _ _ _ Hb Hids) as Hsids.
  pose proof (conforming_size _ _ _ _ Hb Hlocs) as Hslocs.
  rewrite addClusters_Ok by done. cbn [fst].
  set (g := group_of a b i) in *.
  assert (∀ j, j < members a i → a !! (positions a i !!! j) = Some i) as Hpos.
  { intros j Hj. apply elem_of_positions, list_elem_of_lookup_total_2.
    by rewrite <- members_positions. }
  rewrite (getClusterData_mode _ _ _ g (masked a i ids)).
  2:{ cbn [groups]. rewrite placed_lookup, decide_True, Z.sub_0_r, Nat2Z.id by lia.
      by rewrite lookup_rank. }
  2:{ subst g. by rewrite datasets_group_of, Hids. }
  rewrite (size_of_masked a i ids) by done.
  destruct (fold_join_member (map_to_list (datasets g)) (masked a i locs)) with
    (fetch := fetch_records g fields) (key := key_field g) (ids := masked a i ids)
    (R := λ j, R (positions a i !!! j)) (m := size_of (masked a i ids)) (s := 0)
    (cl := @nil (string * ndarray)) as (joined & Hloop & Hfilled).
  - subst g. by rewrite dict_get_map_to_list, datasets_group_of, Hlocs.
  - subst g. by rewrite dict_get_map_to_list, datasets_group_of, Hids.
  - rewrite (size_of_masked a i ids) by done. intros j Hj.
    unfold single_record. rewrite !np_item_masked by done.
    apply (HR _ (Hpos j Hj)).
  - rewrite (size_of_masked a i ids) by done. intros j f Hj. split.
    + apply Huni; apply Hpos; [done|]. destruct (members_pos a i) as [_ Hm]. apply Hm, Hi.
    + apply Huni; apply Hpos; [|done]. destruct (members_pos a i) as [_ Hm]. apply Hm, Hi.
  - done.
  - apply filled_nil.
  - rewrite (size_of_masked a i ids) in * by done. rewrite Hloop. cbn [mbind result_bind].
    eexists _, joined. split; [done|]. split; [done|].
    intros f. rewrite dict_get_merge by apply NoDup_fst_map_to_list.
    rewrite dict_get_map_to_list. subst g. rewrite datasets_group_of.
    by destruct (dict_get f b).
Qed.
End reconstruct.

Lemma ex_global_records_ok (p : nat) :
  ex_ids !! p = Some 1%Z →
  @single_record z_numpy
    (@fetch_records z_numpy z_store (@group_of z_numpy ex_ids ex_data 1%Z) None)
    (zarr DInt [0; 0; 1; 1]%Z) (zarr DInt [0; 1; 0; 1]%Z) p = Ok (ex_global_records p).
Proof.
  destruct p as [|[|[|[|p]]]]; intros Hp; try discriminate Hp; reflexivity.
Defined.

Lemma ex_global_records_uniform (p q : nat) (f : string) :
  ex_ids !! p = Some 1%Z → ex_ids !! q = Some 1%Z →
  is_Some (dict_get f (ex_global_records p)) → is_Some (dict_get f (ex_global_records q)).
Proof.
  destruct p as [|[|[|[|p]]]]; intros Hp; try discriminate Hp;
    destruct q as [|[|[|[|q]]]]; intros Hq; try discriminate Hq;
    try done.
  - set (r := ex_global_records 0). set (r' := ex_global_records 2).
    vm_compute in r, r'. subst r r'. cbn [dict_get]. repeat case_decide; eauto.
  - set (r := ex_global_records 0). set (r' := ex_global_records 2).
    vm_compute in r, r'. subst r r'. cbn [dict_get]. repeat case_decide; eauto.
Defined.

Lemma partition_then_reconstruct_witness :
  below_max ex_ids ∧ plain_names (items ex_data) ∧
  @conforming z_numpy ex_ids ex_data ∧ (1 : Z) ∈ ex_ids ∧
  ∃ cl, @getClusterData z_numpy z_store (@addClusters z_numpy None ex_ids ex_data).1
          (Z.of_nat (rank ex_ids 1)) None = Ok cl ∧
        dict_get "loc_id" cl
          = Some (@masked z_numpy ex_ids 1 (zarr DInt [0; 1; 0; 1]%Z)).
Proof.
  split; [exact ex_ids_below_max|]. split; [exact ex_data_plain_names|].
  split; [exact ex_data_conforming|]. split; [exact ex_one_in_ids|].
  destruct (@partition_then_reconstruct z_numpy z_store None ex_ids ex_data 1 None
              (zarr DInt [0; 0; 1; 1]%Z) (zarr DInt [0; 1; 0; 1]%Z) ex_global_records
              ex_ids_below_max ex_data_plain_names ex_data_conforming ex_one_in_ids eq_refl eq_refl
              ex_global_records_ok ex_global_records_uniform)
    as (cl & joined & Hcl & _ & Hget).
  exists cl. split; [exact Hcl | exact (Hget "loc_id")].
Defined.

(** ** getDataForClustering: the shape of the result *)

Lemma fold_result_invariant {S A} (P : S → Prop) (xs : list A) (body : A → S → result S)
    (s s' : S) :
  (∀ x s s', body x s = Ok s' → P s → P s') →
  P s → fold_result xs body s = Ok s' → P s'.
Proof.
  intros Hbody. revert s. induction xs as [|x xs IH]; intros s Hs; cbn [fold_result].
  - by intros [= <-].
  - destruct (body x s) as [s1|e] eqn:Hx; [|done]. cbn. apply IH. by eapply Hbody.
Qed.

Section shapes.
Context `{Numpy}.

Lemma slice_assign_size (arr arr' : ndarray) (start stop : nat) (vals : list value) :
  slice_assign arr start stop vals = Ok arr' →
  size_of arr' = size_of arr ∧ dtype_of arr' = dtype_of arr.
Proof.
  unfold slice_assign, size_of.
  set (n := length (data arr)). set (lo := start `min` n). set (hi := lo `max` (stop `min` n)).
  assert (lo ≤ hi ≤ n)%nat as Hlohi by lia.
  assert (∀ vs : list value, length vs = hi - lo →
            length (take lo (data arr) ++ (cast (dtype_of arr) <$> vs) ++ drop hi (data arr)) = n)
    as Hlen.
  { intros vs Hvs. rewrite !length_app, length_take, length_fmap, length_drop. lia. }
  case_decide as Hvals.
  - intros [= <-]. cbn [data dtype_of]. split; [by apply Hlen | done].
  - destruct vals as [|v [|? ?]]; try done. intros [= <-]. cbn [data dtype_of].
    split; [apply Hlen, length_replicate | done].
Qed.

Lemma dtype_of_slice_fill (arr : ndarray) (start stop : nat) (v : value) :
  dtype_of (slice_fill arr start stop v) = dtype_of arr.
Proof. done. Qed.

Lemma bind_Ok {A B} (m : result A) (k : A → result B) (b : B) :
  m ≫= k = Ok b → ∃ a, m = Ok a ∧ k a = Ok b.
Proof. destruct m as [a|e]; [|done]. intros Hk. by exists a. Qed.

(** The part of the two loop bodies that fills [z]. *)
Lemma z_step_size (ignore_z : bool) (d : dict ndarray) (arr arr' : ndarray) (start stop : nat) :
  (if negb ignore_z
   then tz ← dict_getitem "z" d; slice_assign arr start stop (scale tz f1000)
   else Ok arr) = Ok arr' →
  size_of arr' = size_of arr.
Proof.
  destruct (negb ignore_z).
  - intros (tz & _ & [Hsize _]%slice_assign_size)%bind_Ok. done.
  - by intros [= <-].
Qed.

Lemma load_tracks_sized (total : nat) (pix : value) (ignore_z : bool)
    (it : nat * pydict ndarray) (s s' : columns) :
  load_tracks pix ignore_z it s = Ok s' → sized total s → sized total s'.
Proof.
  destruct it as [i tracks]. unfold load_tracks.
  intros Hrun (Hk & Hl & Hx & Hy & Hz & Hc & Hdk & Hdl).
  apply bind_Ok in Hrun as (tx & _ & Hrun).
  apply bind_Ok in Hrun as (loc_id & [Hl' Hdl']%slice_assign_size & Hrun).
  apply bind_Ok in Hrun as (x & [Hx' _]%slice_assign_size & Hrun).
  apply bind_Ok in Hrun as (ty & _ & Hrun).
  apply bind_Ok in Hrun as (y & [Hy' _]%slice_assign_size & Hrun).
  apply bind_Ok in Hrun as (z & Hz'%z_step_size & Hrun).
  apply bind_Ok in Hrun as (tc & _ & Hrun).
  apply bind_Ok in Hrun as (c & [Hc' _]%slice_assign_size & Hrun).
  injection Hrun as <-. unfold sized. cbn [col_key col_loc_id col_x col_y col_z col_c].
  rewrite size_of_slice_fill, dtype_of_slice_fill.
  split_and!; congruence.
Qed.

Lemma load_locs_sized (total : nat) (pix : value) (ignore_z : bool)
    (it : Z * pydict ndarray) (s s' : columns) :
  load_locs pix ignore_z it s = Ok s' → sized total s → sized total s'.
Proof.
  destruct it as [f_num locs]. unfold load_locs.
  intros Hrun (Hk & Hl & Hx & Hy & Hz & Hc & Hdk & Hdl).
  apply bind_Ok in Hrun as (lx & _ & Hrun).
  apply bind_Ok in Hrun as (loc_id & [Hl' Hdl']%slice_assign_size & Hrun).
  apply bind_Ok in Hrun as (x & [Hx' _]%slice_assign_size & Hrun).
  apply bind_Ok in Hrun as (ly & _ & Hrun).
  apply bind_Ok in Hrun as (y & [Hy' _]%slice_assign_size & Hrun).
  apply bind_Ok in Hrun as (z & Hz'%z_step_size & Hrun).
  apply bind_Ok in Hrun as (lc & _ & Hrun).
  apply bind_Ok in Hrun as (c & [Hc' _]%slice_assign_size & Hrun).
  injection Hrun as <-. unfold sized. cbn [col_key col_loc_id col_x col_y col_z col_c].
  rewrite size_of_slice_fill, dtype_of_slice_fill.
  split_and!; congruence.
Qed.

Lemma sized_start (total : nat) :
  sized total (Columns 0 (zeros total int_) (zeros total int_) (zeros total float64)
                 (zeros total float64) (zeros total float64) (zeros total int32)).
Proof. unfold sized, zeros, size_of. cbn. by rewrite !length_replicate. Qed.
End shapes.

Section result_shape.
Context `{RecordStore}.

(** What a call that returns has produced: the columns of a loop state
    whose arrays all have the reported record count. *)
Lemma getDataForClustering_columns (ignore_z : bool) (x y z c : ndarray)
    (cluster_data : dict ndarray) :
  getDataForClustering ignore_z = Ok (x, y, z, c, cluster_data) →
  ∃ s, sized store_total s ∧ x = col_x s ∧ y = col_y s ∧ z = col_z s ∧ c = col_c s ∧
    cluster_data = if hasTracks then [("loc_id", col_loc_id s); ("track_id", col_key s)]
                   else [("frame", col_key s); ("loc_id", col_loc_id s)].
Proof.
  unfold getDataForClustering, store_total, for_gen.
  destruct hasTracks; intros Hrun.
  - apply bind_Ok in Hrun as (s0 & (s & Hloop & Hend)%bind_Ok & Hrun).
    destruct (enumerate _).2; [done|]. injection Hend as ->.
    cbn in Hrun. injection Hrun as <- <- <- <- <-. exists s0. split; [|done].
    eapply (fold_result_invariant (sized getNTracks)); [|apply sized_start|exact Hloop].
    intros ? ? ?. apply load_tracks_sized.
  - apply bind_Ok in Hrun as (s0 & (s & Hloop & Hend)%bind_Ok & Hrun).
    destruct (localizationsIterator _).2; [done|]. injection Hend as ->.
    cbn in Hrun. injection Hrun as <- <- <- <- <-. exists s0. split; [|done].
    eapply (fold_result_invariant (sized getNLocalizations)); [|apply sized_start|exact Hloop].
    intros ? ? ?. apply load_locs_sized.
Qed.

(** X14. Whatever the store streams, when [getDataForClustering]
    returns, [x], [y], [z], the categories and the two cross-reference
    arrays all have as many elements as the store reports records, and
    the cross-reference holds exactly "loc_id" and "track_id" for a
    store with tracks, "frame" and "loc_id" otherwise. *)
Theorem getDataForClustering_shape (ignore_z : bool) (x y z c : ndarray)
    (cluster_data : dict ndarray) :
  getDataForClustering ignore_z = Ok (x, y, z, c, cluster_data) →
  size_of x = store_total ∧ size_of y = store_total ∧ size_of z = store_total ∧
  size_of c = store_total ∧
  cluster_data.*1 = (if hasTracks then ["loc_id"; "track_id"] else ["frame"; "loc_id"]) ∧
  Forall (λ fa, size_of fa.2 = store_total) cluster_data.
Proof.
  intros (s & (Hk & Hl & Hx & Hy & Hz & Hc & _) & -> & -> & -> & -> & ->)%getDataForClustering_columns.
  split_and!; try done; destruct hasTracks; try done; by repeat constructor.
Qed.

(** X15. The cross-reference returned by [getDataForClustering] is
    accepted by [addClusters] together with any non-empty assignment
    of 64-bit ids below the largest one that has one id per reported
    record, and [getNClusters] then returns the number of distinct ids
    minus one. *)
Theorem getDataForClustering_feeds_addClusters (ignore_z : bool) (x y z c : ndarray)
    (b : pydict ndarray) (h : hdf5) (a : list Z) :
  getDataForClustering ignore_z = Ok (x, y, z, c, items b) →
  length a = store_total → a ≠ [] → below_max a →
  (addClusters h a b).2 = Ok () ∧
  getNClusters (addClusters h a b).1 = Ok (Z.of_nat (size (list_to_set a : gset Z)) - 1)%Z.
Proof.
  intros (s & (Hk & Hl & _) & _ & _ & _ & _ & Hb)%getDataForClustering_columns Hlen Ha Hmax.
  assert (conforming a b) as Hconf.
  { unfold conforming. rewrite Hb. destruct hasTracks; repeat constructor; cbn; congruence. }
  rewrite addClusters_Ok by done. cbn. split; [done|].
  unfold getNClusters. cbn. by rewrite length_occupied_ids.
Qed.
End result_shape.

Lemma ex_clustering_data :
  @getDataForClustering z_numpy z_store true =
    Ok (zarr DFloat [0; 160; 1600; 1760]%Z, zarr DFloat [0; 160; 3200; 3360]%Z,
        zarr DFloat [0; 0; 0; 0]%Z, zarr DInt32 [0; 1; 0; 1]%Z, items ex_data).
Proof. reflexivity. Defined.

Lemma getDataForClustering_shape_witness :
  @getDataForClustering z_numpy z_store true =
    Ok (zarr DFloat [0; 160; 1600; 1760]%Z, zarr DFloat [0; 160; 3200; 3360]%Z,
        zarr DFloat [0; 0; 0; 0]%Z, zarr DInt32 [0; 1; 0; 1]%Z, items ex_data) ∧
  @size_of z_numpy (zarr DFloat [0; 0; 0; 0]%Z) = @store_total z_numpy z_store.
Proof.
  split; [exact ex_clustering_data|].
  exact (proj1 (proj2 (proj2 (@getDataForClustering_shape z_numpy z_store true _ _ _ _ _
                                ex_clustering_data)))).
Defined.

Lemma getDataForClustering_feeds_addClusters_witness :
  length ex_ids = @store_total z_numpy z_store ∧ ex_ids ≠ [] ∧ below_max ex_ids ∧
  (@addClusters z_numpy None ex_ids ex_data).2 = Ok ().
Proof.
  split; [reflexivity|]. split; [exact ex_ids_nonempty|]. split; [exact ex_ids_below_max|].
  exact (proj1 (@getDataForClustering_feeds_addClusters z_numpy z_store true _ _ _ _
                  ex_data None ex_ids ex_clustering_data eq_refl ex_ids_nonempty
                  ex_ids_below_max)).
Defined.
